(** * compare-results.ts: result normalisation and comparative scoring

    A shallow embedding of [src/compare-results.ts].  JavaScript numbers are
    IEEE 754 binary64 values and are modelled by Rocq's primitive floats, so
    every arithmetic operation and comparison below rounds exactly as the
    script does.  An object property that may be missing is an [option]
    ([None] is [undefined]); the file system and the clock are read from an
    explicit [World]. *)

From Stdlib Require Import Floats ZArith Lia Bool List String Ascii.
Import ListNotations.
Set Warnings "-inexact-float,-register-all".

Local Open Scope string_scope.

(** ** JavaScript values *)

Module Js.

Definition number := float.

(** ToBoolean of ECMAScript, restricted to the types the script uses. *)
Class ToBoolean (A : Type) := toBoolean : A -> bool.

(** A number is falsy when it is [+0], [-0] or [NaN]. *)
#[export] Instance number_ToBoolean : ToBoolean number :=
  fun x => if is_nan x then false else negb (is_zero x).

(** A string is falsy when it is empty. *)
#[export] Instance string_ToBoolean : ToBoolean string :=
  fun s => match s with EmptyString => false | String _ _ => true end.

#[export] Instance bool_ToBoolean : ToBoolean bool := fun b => b.

(** [a || b] where both operands may be [undefined]. *)
Definition orElse {A} `{ToBoolean A} (a b : option A) : option A :=
  match a with
  | Some x => if toBoolean x then a else b
  | None => b
  end.

(** [a || d] where the right operand is a defined value. *)
Definition orDefault {A} `{ToBoolean A} (a : option A) (d : A) : A :=
  match a with
  | Some x => if toBoolean x then x else d
  | None => d
  end.

(** [a && b] used as a condition. *)
Definition andCond {A B} `{ToBoolean A} `{ToBoolean B} (a : A) (b : B) : bool :=
  toBoolean a && toBoolean b.

(** [s.repeat(n)] *)
Fixpoint repeatString (s : string) (n : nat) : string :=
  match n with
  | O => ""
  | S n' => s ++ repeatString s n'
  end.

Definition newline : string := String "010"%char "".

(** A [Set<string>] keeps its elements in insertion order. *)
Definition StringSet := list string.

Definition Set_has (s : StringSet) (x : string) : bool := existsb (String.eqb x) s.

Definition Set_add (s : StringSet) (x : string) : StringSet :=
  if Set_has s x then s else (s ++ [x])%list.

(** The values handed to [JSON.stringify]; an array length is kept as the
    natural number it is. *)
Inductive Value :=
| VNumber (x : number)
| VLength (n : nat)
| VString (s : string)
| VBool (b : bool)
| VArray (items : list Value)
| VObject (members : list (string * Value)).

Fixpoint lookup (k : string) (members : list (string * Value)) : option Value :=
  match members with
  | [] => None
  | (k', v) :: rest => if String.eqb k k' then Some v else lookup k rest
  end.

Definition keys (v : Value) : list string :=
  match v with
  | VObject members => map fst members
  | _ => []
  end.

Definition member (k : string) (v : Value) : option Value :=
  match v with
  | VObject members => lookup k members
  | _ => None
  end.

Definition withoutMember (k : string) (v : Value) : Value :=
  match v with
  | VObject members => VObject (filter (fun kv => negb (String.eqb k (fst kv))) members)
  | _ => v
  end.

End Js.

Import Js.
Local Open Scope float_scope.

(** ** Records *)

(** [interface TestResult] as it comes out of [JSON.parse]: the six
    properties that [normaliseResult] reads with a fallback may be missing. *)
Module Raw.
Record TestResult := {
  testName : option string;
  test_name : option string;
  framework : string;
  model : string;
  prompt : string;
  response : string;
  tokensIn : option number;
  tokens_in : option number;
  tokensOut : option number;
  tokens_out : option number;
  cost : number;
  durationMs : option number;
  duration_ms : option number;
  success : bool;
  error : option string;
}.

Definition withCost (r : TestResult) (c : number) : TestResult :=
  {| testName := testName r; test_name := test_name r; framework := framework r;
     model := model r; prompt := prompt r; response := response r;
     tokensIn := tokensIn r; tokens_in := tokens_in r;
     tokensOut := tokensOut r; tokens_out := tokens_out r;
     cost := c;
     durationMs := durationMs r; duration_ms := duration_ms r;
     success := success r; error := error r |}.
End Raw.

(** [interface TestResult] as [normaliseResult] returns it: the object
    literal of lines 66-78 has exactly these eleven properties. *)
Module Normalised.
Record TestResult := {
  testName : string;
  framework : string;
  model : string;
  prompt : string;
  response : string;
  tokensIn : number;
  tokensOut : number;
  cost : number;
  durationMs : number;
  success : bool;
  error : option string;
}.
End Normalised.

(** The per-SDK block of [interface ComparisonResult]. *)
Module Metrics.
Record t := {
  duration : number;
  tokensIn : number;
  tokensOut : number;
  cost : number;
  success : bool;
}.
End Metrics.

Inductive SpeedWinner := speed_pi | speed_claude | speed_tie.
Inductive CostWinner := cost_pi | cost_claude | cost_tie | cost_unknown.

Module Winner.
Record t := {
  speed : SpeedWinner;
  cost : CostWinner;
}.
End Winner.

Module Comparison.
Record t := {
  testName : string;
  piSdk : Metrics.t;
  claudeSdk : Metrics.t;
  winner : Winner.t;
}.
End Comparison.

Module Totals.
Record t := {
  duration : number;
  tokensIn : number;
  tokensOut : number;
  cost : number;
  passed : nat;
}.
End Totals.

Module SpeedWins.
Record t := {
  pi : nat;
  claude : nat;
  tie : nat;
}.
End SpeedWins.

Module Summary.
Record t := {
  piTotals : Totals.t;
  claudeTotals : Totals.t;
  speedWins : SpeedWins.t;
}.
End Summary.

Module Report.
Record t := {
  comparisons : list Comparison.t;
  summary : Summary.t;
  generatedAt : string;
}.
End Report.

(** ** Normalisation (lines 27-79) *)

Definition BEDROCK_INPUT_PRICE : number := 15.0.
Definition BEDROCK_OUTPUT_PRICE : number := 75.0.

Definition calculateBedrockCost (tokensIn tokensOut : number) : number :=
  (tokensIn / 1000000) * BEDROCK_INPUT_PRICE +
  (tokensOut / 1000000) * BEDROCK_OUTPUT_PRICE.

Definition normaliseResult (r : Raw.TestResult) : Normalised.TestResult :=
  let tokensIn := orDefault (orElse (Raw.tokensIn r) (Raw.tokens_in r)) 0 in
  let tokensOut := orDefault (orElse (Raw.tokensOut r) (Raw.tokens_out r)) 0 in
  let cost := calculateBedrockCost tokensIn tokensOut in
  {| Normalised.testName := orDefault (orElse (Raw.testName r) (Raw.test_name r)) "Unknown"%string;
     Normalised.framework := Raw.framework r;
     Normalised.model := Raw.model r;
     Normalised.prompt := Raw.prompt r;
     Normalised.response := Raw.response r;
     Normalised.tokensIn := tokensIn;
     Normalised.tokensOut := tokensOut;
     Normalised.cost := cost;
     Normalised.durationMs := orDefault (orElse (Raw.durationMs r) (Raw.duration_ms r)) 0;
     Normalised.success := Raw.success r;
     Normalised.error := Raw.error r |}.

(** ** Loading (lines 81-89) *)

(** What a file under [RESULTS_DIR] holds: either text that [JSON.parse]
    turns into an array of records, or anything else (on which
    [JSON.parse] or [data.map] raises). *)
Inductive FileData :=
| Records (data : list Raw.TestResult)
| NotRecords.

(** The part of the outside world the script reads: the files of
    [RESULTS_DIR] by name, and [new Date().toISOString()]. *)
Record World := {
  files : string -> option FileData;
  now : string;
}.

Inductive Completion (A : Type) :=
| Normal (a : A)
| Throw.
Arguments Normal {A} a.
Arguments Throw {A}.

(** [loadResults] returns the lines it logs together with its completion;
    [None] is the [null] of line 85. *)
Definition loadResults (w : World) (filename : string)
  : list string * Completion (option (list Normalised.TestResult)) :=
  match files w filename with
  | None => ([("Warning: " ++ filename ++ " not found")%string], Normal None)
  | Some NotRecords => ([], Throw)
  | Some (Records data) => ([], Normal (Some (map normaliseResult data)))
  end.

(** ** Comparison (lines 107-163) *)

(** [results?.forEach((r) => testNames.add(r.testName))] *)
Definition addTestNames (results : option (list Normalised.TestResult))
  (testNames : StringSet) : StringSet :=
  match results with
  | Some rs => fold_left (fun names r => Set_add names (Normalised.testName r)) rs testNames
  | None => testNames
  end.

Definition collectTestNames (piResults claudeResults : option (list Normalised.TestResult))
  : StringSet :=
  addTestNames claudeResults (addTestNames piResults []).

(** [results?.find((r) => r.testName === testName)] *)
Definition findResult (results : option (list Normalised.TestResult)) (testName : string)
  : option Normalised.TestResult :=
  match results with
  | Some rs => find (fun r => String.eqb (Normalised.testName r) testName) rs
  | None => None
  end.

(** The [piSdk] / [claudeSdk] block of lines 120-133. *)
Definition metricsOf (result : option Normalised.TestResult) : Metrics.t :=
  {| Metrics.duration := orDefault (option_map Normalised.durationMs result) 0;
     Metrics.tokensIn := orDefault (option_map Normalised.tokensIn result) 0;
     Metrics.tokensOut := orDefault (option_map Normalised.tokensOut result) 0;
     Metrics.cost := orDefault (option_map Normalised.cost result) 0;
     Metrics.success := orDefault (option_map Normalised.success result) false |}.

(** Lines 135 and 141-150. *)
Definition speedWinner (piSdk claudeSdk : Metrics.t) : SpeedWinner :=
  if andCond (Metrics.duration piSdk) (Metrics.duration claudeSdk) then
    if Metrics.duration piSdk <? Metrics.duration claudeSdk * 0.9 then speed_pi
    else if Metrics.duration claudeSdk <? Metrics.duration piSdk * 0.9 then speed_claude
    else speed_tie
  else speed_tie.

(** Lines 136 and 152-160. *)
Definition costWinner (piSdk claudeSdk : Metrics.t) : CostWinner :=
  if (0 <? Metrics.cost piSdk) && (0 <? Metrics.cost claudeSdk) then
    if Metrics.cost piSdk <? Metrics.cost claudeSdk * 0.9 then cost_pi
    else if Metrics.cost claudeSdk <? Metrics.cost piSdk * 0.9 then cost_claude
    else cost_tie
  else cost_unknown.

(** The body of the loop of lines 114-163 for one [testName]. *)
Definition compareTest (piResults claudeResults : option (list Normalised.TestResult))
  (testName : string) : Comparison.t :=
  let piSdk := metricsOf (findResult piResults testName) in
  let claudeSdk := metricsOf (findResult claudeResults testName) in
  {| Comparison.testName := testName;
     Comparison.piSdk := piSdk;
     Comparison.claudeSdk := claudeSdk;
     Comparison.winner :=
       {| Winner.speed := speedWinner piSdk claudeSdk;
          Winner.cost := costWinner piSdk claudeSdk |} |}.

Definition buildComparisons (piResults claudeResults : option (list Normalised.TestResult))
  : list Comparison.t :=
  map (compareTest piResults claudeResults) (collectTestNames piResults claudeResults).

(** ** Summary (lines 207-227) *)

Definition totalsOf (sdk : Comparison.t -> Metrics.t) (comparisons : list Comparison.t)
  : Totals.t :=
  {| Totals.duration := fold_left (fun sum c => sum + Metrics.duration (sdk c)) comparisons 0;
     Totals.tokensIn := fold_left (fun sum c => sum + Metrics.tokensIn (sdk c)) comparisons 0;
     Totals.tokensOut := fold_left (fun sum c => sum + Metrics.tokensOut (sdk c)) comparisons 0;
     Totals.cost := fold_left (fun sum c => sum + Metrics.cost (sdk c)) comparisons 0;
     Totals.passed := List.length (filter (fun c => Metrics.success (sdk c)) comparisons) |}.

Definition isSpeed (v : SpeedWinner) (c : Comparison.t) : bool :=
  match Winner.speed (Comparison.winner c), v with
  | speed_pi, speed_pi | speed_claude, speed_claude | speed_tie, speed_tie => true
  | _, _ => false
  end.

Definition speedWinsOf (comparisons : list Comparison.t) : SpeedWins.t :=
  {| SpeedWins.pi := List.length (filter (isSpeed speed_pi) comparisons);
     SpeedWins.claude := List.length (filter (isSpeed speed_claude) comparisons);
     SpeedWins.tie := List.length (filter (isSpeed speed_tie) comparisons) |}.

(** ** Report (lines 263-281) *)

Definition buildReport (piResults claudeResults : option (list Normalised.TestResult))
  (generatedAt : string) : Report.t :=
  let comparisons := buildComparisons piResults claudeResults in
  {| Report.comparisons := comparisons;
     Report.summary :=
       {| Summary.piTotals := totalsOf Comparison.piSdk comparisons;
          Summary.claudeTotals := totalsOf Comparison.claudeSdk comparisons;
          Summary.speedWins := speedWinsOf comparisons |};
     Report.generatedAt := generatedAt |}.

(** The object literals of the script, property by property and in
    source order, as [JSON.stringify] receives them. *)
Definition metricsValue (m : Metrics.t) : Value :=
  VObject [("duration", VNumber (Metrics.duration m));
           ("tokensIn", VNumber (Metrics.tokensIn m));
           ("tokensOut", VNumber (Metrics.tokensOut m));
           ("cost", VNumber (Metrics.cost m));
           ("success", VBool (Metrics.success m))]%string.

Definition speedWinnerValue (v : SpeedWinner) : Value :=
  match v with
  | speed_pi => VString "pi"
  | speed_claude => VString "claude"
  | speed_tie => VString "tie"
  end.

Definition costWinnerValue (v : CostWinner) : Value :=
  match v with
  | cost_pi => VString "pi"
  | cost_claude => VString "claude"
  | cost_tie => VString "tie"
  | cost_unknown => VString "unknown"
  end.

Definition comparisonValue (c : Comparison.t) : Value :=
  VObject [("testName", VString (Comparison.testName c));
           ("piSdk", metricsValue (Comparison.piSdk c));
           ("claudeSdk", metricsValue (Comparison.claudeSdk c));
           ("winner",
            VObject [("speed", speedWinnerValue (Winner.speed (Comparison.winner c)));
                     ("cost", costWinnerValue (Winner.cost (Comparison.winner c)))])]%string.

Definition totalsValue (t : Totals.t) : Value :=
  VObject [("duration", VNumber (Totals.duration t));
           ("tokensIn", VNumber (Totals.tokensIn t));
           ("tokensOut", VNumber (Totals.tokensOut t));
           ("cost", VNumber (Totals.cost t));
           ("passed", VLength (Totals.passed t))]%string.

Definition speedWinsValue (w : SpeedWins.t) : Value :=
  VObject [("pi", VLength (SpeedWins.pi w));
           ("claude", VLength (SpeedWins.claude w));
           ("tie", VLength (SpeedWins.tie w))]%string.

Definition summaryValue (s : Summary.t) : Value :=
  VObject [("piTotals", totalsValue (Summary.piTotals s));
           ("claudeTotals", totalsValue (Summary.claudeTotals s));
           ("speedWins", speedWinsValue (Summary.speedWins s))]%string.

Definition reportValue (r : Report.t) : Value :=
  VObject [("comparisons", VArray (map comparisonValue (Report.comparisons r)));
           ("summary", summaryValue (Report.summary r));
           ("generatedAt", VString (Report.generatedAt r))]%string.

(** ** The script (lines 91-282) *)

Definition PI_RESULTS : string := "pi-sdk-results.json".
Definition CLAUDE_RESULTS : string := "anthropic-bedrock-results.json".
Definition REPORT : string := "comparison-report.json".

(** Lines 92-95. *)
Definition banner : list string :=
  [newline ++ repeatString "=" 70;
   "SDK COMPARISON RESULTS";
   "Pi Agent SDK vs Anthropic Python SDK (both via Bedrock)";
   repeatString "=" 70]%string.

(** Lines 101-103. *)
Definition noResultsNotice : list string :=
  [newline ++ "No results found. Run the tests first:";
   "  npm run test:pi";
   "  npm run test:claude"]%string.

(** How a run of the script ends.  On the early return the console holds
    only fixed text and is kept whole; on the main path the script also
    prints formatted numbers, which are left out, and the run is described
    by the file it writes: its name under [RESULTS_DIR] and the object
    serialised into it. *)
Inductive Outcome :=
| Raised
| NoResults (console : list string)
| Saved (file : string) (report : Report.t).

Definition compareResults (w : World) : Outcome :=
  let (log1, loaded1) := loadResults w PI_RESULTS in
  match loaded1 with
  | Throw => Raised
  | Normal piResults =>
    let (log2, loaded2) := loadResults w CLAUDE_RESULTS in
    match loaded2 with
    | Throw => Raised
    | Normal claudeResults =>
      match piResults, claudeResults with
      | None, None => NoResults (banner ++ log1 ++ log2 ++ noResultsNotice)
      | _, _ => Saved REPORT (buildReport piResults claudeResults (now w))
      end
    end
  end.

(** ** Console output of the main path (lines 165-261 and 281)

    The script formats numbers with [toFixed] and with template literals.
    Both are built into JavaScript and are taken as given: the lines are
    modelled for any [toFixed] and any number-to-string conversion.  The
    counts the script prints are array lengths, printed in decimal. *)

Fixpoint digitsOf (fuel n : nat) (acc : string) : string :=
  match fuel with
  | O => acc
  | S fuel' =>
    let acc' := String (ascii_of_nat (48 + Nat.modulo n 10)) acc in
    match Nat.div n 10 with
    | O => acc'
    | q => digitsOf fuel' q acc'
    end
  end.

(** [`${n}`] for an array length [n]. *)
Definition lengthToString (n : nat) : string := digitsOf (S n) n "".

Inductive OverallSpeed := overall_pi | overall_claude | overall_close.

(** The test of lines 254-260. *)
Definition overallSpeed (piTotals claudeTotals : Totals.t) : OverallSpeed :=
  if Totals.duration piTotals <? Totals.duration claudeTotals * 0.9 then overall_pi
  else if Totals.duration claudeTotals <? Totals.duration piTotals * 0.9 then overall_claude
  else overall_close.

Definition overallSpeedLine (v : OverallSpeed) : string :=
  match v with
  | overall_pi => "OVERALL SPEED WINNER: Pi Agent SDK"
  | overall_claude => "OVERALL SPEED WINNER: Claude Agent SDK"
  | overall_close => "OVERALL SPEED: Too close to call"
  end.

(** Lines 193-198. *)
Definition speedWinnerLabel (v : SpeedWinner) : string :=
  match v with
  | speed_tie => "Tie"
  | speed_pi => "Pi SDK (faster)"
  | speed_claude => "Claude SDK (faster)"
  end.

Section Console.
Variable toFixed : number -> nat -> string.
Variable numberToString : number -> string.

(** Lines 172-178 and 181-190, for the label of either SDK. *)
Definition sdkRow (label : string) (m : Metrics.t) : string :=
  let tokens :=
    if 0 <? Metrics.tokensIn m
    then numberToString (Metrics.tokensIn m) ++ "/" ++ numberToString (Metrics.tokensOut m)
    else "N/A" in
  let cost :=
    if 0 <? Metrics.cost m then "$" ++ toFixed (Metrics.cost m) 4 else "N/A" in
  let status := if Metrics.success m then "✓" else "✗" in
  label ++ toFixed (Metrics.duration m / 1000) 2 ++ "s | " ++ tokens ++ " tokens | "
        ++ cost ++ " | " ++ status.

(** Lines 167-199: the six lines printed for one comparison. *)
Definition comparisonBlock (c : Comparison.t) : list string :=
  [newline ++ repeatString "─" 70;
   "Test: " ++ Comparison.testName c;
   repeatString "─" 70;
   sdkRow "  Pi SDK:     " (Comparison.piSdk c);
   sdkRow "  Claude SDK: " (Comparison.claudeSdk c);
   "  Speed: " ++ speedWinnerLabel (Winner.speed (Comparison.winner c))].

(** Lines 203-250. *)
Definition summaryLines (comparisons : list Comparison.t) (s : Summary.t) : list string :=
  let piTotals := Summary.piTotals s in
  let claudeTotals := Summary.claudeTotals s in
  let speedWins := Summary.speedWins s in
  [newline ++ repeatString "=" 70;
   "SUMMARY";
   repeatString "=" 70;
   newline ++ "Total Duration:";
   "  Pi SDK:     " ++ toFixed (Totals.duration piTotals / 1000) 2 ++ "s";
   "  Claude SDK: " ++ toFixed (Totals.duration claudeTotals / 1000) 2 ++ "s";
   newline ++ "Total Tokens (in/out):";
   "  Pi SDK:     " ++ numberToString (Totals.tokensIn piTotals) ++ " / "
                    ++ numberToString (Totals.tokensOut piTotals);
   "  Claude SDK: " ++ numberToString (Totals.tokensIn claudeTotals) ++ " / "
                    ++ numberToString (Totals.tokensOut claudeTotals);
   newline ++ "Total Cost:";
   "  Pi SDK:     $" ++ toFixed (Totals.cost piTotals) 4;
   "  Claude SDK: $" ++ toFixed (Totals.cost claudeTotals) 4;
   newline ++ "Tests Passed:";
   "  Pi SDK:     " ++ lengthToString (Totals.passed piTotals) ++ "/"
                    ++ lengthToString (List.length comparisons);
   "  Claude SDK: " ++ lengthToString (Totals.passed claudeTotals) ++ "/"
                    ++ lengthToString (List.length comparisons);
   newline ++ "Speed Wins:";
   "  Pi SDK: " ++ lengthToString (SpeedWins.pi speedWins)
                ++ " | Claude SDK: " ++ lengthToString (SpeedWins.claude speedWins)
                ++ " | Tie: " ++ lengthToString (SpeedWins.tie speedWins)].

(** Lines 253-261. *)
Definition overallLines (s : Summary.t) : list string :=
  [newline ++ repeatString "=" 70;
   overallSpeedLine (overallSpeed (Summary.piTotals s) (Summary.claudeTotals s));
   repeatString "=" 70 ++ newline].

(** Everything the main path prints after the two files are loaded;
    [reportPath] is [join(RESULTS_DIR, "comparison-report.json")]. *)
Definition reportConsole (reportPath : string) (report : Report.t) : list string :=
  (List.concat (map comparisonBlock (Report.comparisons report))
   ++ summaryLines (Report.comparisons report) (Report.summary report)
   ++ overallLines (Report.summary report)
   ++ [("Comparison report saved to: " ++ reportPath)%string])%list.

(** The console of a whole run, on every path: the exception of a file
    that does not parse cuts it short. *)
Definition consoleOf (reportPath : string) (w : World) : list string :=
  let (log1, loaded1) := loadResults w PI_RESULTS in
  match loaded1 with
  | Throw => (banner ++ log1)%list
  | Normal piResults =>
    let (log2, loaded2) := loadResults w CLAUDE_RESULTS in
    match loaded2 with
    | Throw => (banner ++ log1 ++ log2)%list
    | Normal claudeResults =>
      match piResults, claudeResults with
      | None, None => (banner ++ log1 ++ log2 ++ noResultsNotice)%list
      | _, _ =>
        (banner ++ log1 ++ log2
         ++ reportConsole reportPath (buildReport piResults claudeResults (now w)))%list
      end
    end
  end.

End Console.

(** ** Vocabulary of the specification *)

(** The result set the script works with for a file name: the normalised
    records of the file, or [None] when there is no such file. *)
Definition loaded (w : World) (filename : string) : option (list Normalised.TestResult) :=
  match files w filename with
  | Some (Records data) => Some (map normaliseResult data)
  | _ => None
  end.

(** Every result file that exists holds an array of records. *)
Definition wellFormed (w : World) : Prop :=
  files w PI_RESULTS <> Some NotRecords /\ files w CLAUDE_RESULTS <> Some NotRecords.

(** The task identifiers of a result set, in file order. *)
Definition namesOf (results : option (list Normalised.TestResult)) : list string :=
  match results with
  | Some rs => map Normalised.testName rs
  | None => []
  end.

(** A list cut down to the first occurrence of each of its elements. *)
Fixpoint firstOccurrences (l : list string) : list string :=
  match l with
  | [] => []
  | x :: rest => x :: remove string_dec x (firstOccurrences rest)
  end.

(** The snapshot of a participant that has no record for a task. *)
Definition zeroMetrics : Metrics.t :=
  {| Metrics.duration := 0; Metrics.tokensIn := 0; Metrics.tokensOut := 0;
     Metrics.cost := 0; Metrics.success := false |}.

(** A record that carries its four dual-named values under the
    camelCase names only; the other properties are those of [rest]. *)
Definition camelOnly (rest : Raw.TestResult) (name : string) (tin tout dur : number)
  : Raw.TestResult :=
  {| Raw.testName := Some name; Raw.test_name := None;
     Raw.framework := Raw.framework rest; Raw.model := Raw.model rest;
     Raw.prompt := Raw.prompt rest; Raw.response := Raw.response rest;
     Raw.tokensIn := Some tin; Raw.tokens_in := None;
     Raw.tokensOut := Some tout; Raw.tokens_out := None;
     Raw.cost := Raw.cost rest;
     Raw.durationMs := Some dur; Raw.duration_ms := None;
     Raw.success := Raw.success rest; Raw.error := Raw.error rest |}.

(** The same values under the snake_case names only. *)
Definition snakeOnly (rest : Raw.TestResult) (name : string) (tin tout dur : number)
  : Raw.TestResult :=
  {| Raw.testName := None; Raw.test_name := Some name;
     Raw.framework := Raw.framework rest; Raw.model := Raw.model rest;
     Raw.prompt := Raw.prompt rest; Raw.response := Raw.response rest;
     Raw.tokensIn := None; Raw.tokens_in := Some tin;
     Raw.tokensOut := None; Raw.tokens_out := Some tout;
     Raw.cost := Raw.cost rest;
     Raw.durationMs := None; Raw.duration_ms := Some dur;
     Raw.success := Raw.success rest; Raw.error := Raw.error rest |}.

(** The sum of a sequence of numbers, accumulated from [0] left to right
    (binary64 addition is not associative, so the order is part of it). *)
Definition total (xs : list number) : number := fold_left add xs 0.

Fixpoint countWhere {A} (p : A -> bool) (l : list A) : nat :=
  match l with
  | [] => O
  | x :: rest => if p x then S (countWhere p rest) else countWhere p rest
  end.

Definition isCost (v : CostWinner) (c : Comparison.t) : bool :=
  match Winner.cost (Comparison.winner c), v with
  | cost_pi, cost_pi | cost_claude, cost_claude
  | cost_tie, cost_tie | cost_unknown, cost_unknown => true
  | _, _ => false
  end.

(** A tally of the cost verdicts in the summary of a report: some member
    of the summary is an object that holds, under some key, the number of
    tasks [pi] won on cost. *)
Definition hasCostTally (report : Report.t) : Prop :=
  exists key tally k,
    member key (summaryValue (Report.summary report)) = Some tally /\
    member k tally = Some (VLength (countWhere (isCost cost_pi) (Report.comparisons report))).

(** [|x - y| < eps] on binary64. *)
Definition near (x y eps : number) : bool := abs (x - y) <? eps.

(** The two terms of [calculateBedrockCost]. *)
Definition inputCost (tokensIn : number) : number :=
  (tokensIn / 1000000) * BEDROCK_INPUT_PRICE.

Definition outputCost (tokensOut : number) : number :=
  (tokensOut / 1000000) * BEDROCK_OUTPUT_PRICE.

(** ** Concrete inputs *)

(** A world with the two result files as given and no other file. *)
Definition worldOf (piFile claudeFile : option FileData) (timestamp : string) : World :=
  {| files := fun name =>
       if String.eqb name PI_RESULTS then piFile
       else if String.eqb name CLAUDE_RESULTS then claudeFile
       else None;
     now := timestamp |}.

Definition rawRecord (name : string) (durationMs tokensIn tokensOut cost : number)
  (success : bool) : Raw.TestResult :=
  {| Raw.testName := Some name; Raw.test_name := None;
     Raw.framework := "sdk"; Raw.model := "model";
     Raw.prompt := "prompt"; Raw.response := "response";
     Raw.tokensIn := Some tokensIn; Raw.tokens_in := None;
     Raw.tokensOut := Some tokensOut; Raw.tokens_out := None;
     Raw.cost := cost;
     Raw.durationMs := Some durationMs; Raw.duration_ms := None;
     Raw.success := success; Raw.error := None |}%string.

(** The end-to-end scenario of the specification. *)
Definition bugDetectionA : Raw.TestResult := rawRecord "Bug Detection" 7340 50 454 0 true.
Definition bugDetectionB : Raw.TestResult := rawRecord "Bug Detection" 8160 50 457 0 true.

Definition bugDetectionWorld : World :=
  worldOf (Some (Records [bugDetectionA])) (Some (Records [bugDetectionB]))
          "2026-01-15T00:00:00.000Z".

(** Two result sets that share one task and have one task each of their
    own. *)
Definition partialWorld : World :=
  worldOf (Some (Records [bugDetectionA; rawRecord "Refactoring" 20520 120 1337 0 true]))
          (Some (Records [bugDetectionB; rawRecord "Documentation" 27240 110 1809 0 true]))
          "2026-01-15T00:00:00.000Z".

(** Two tasks, both won by [pi] on cost; on speed [pi] wins the first
    and the second is a tie; each participant passes one task. *)
Definition tallyWorld : World :=
  worldOf (Some (Records [rawRecord "t1" 100 10 10 0 true;
                          rawRecord "t2" 1000 10 10 0 false]))
          (Some (Records [rawRecord "t1" 200 1000 1000 0 true;
                          rawRecord "t2" 1000 1000 1000 0 false]))
          "2026-01-15T00:00:00.000Z".

(** The scenario again, run one day later. *)
Definition bugDetectionWorldLater : World :=
  worldOf (Some (Records [bugDetectionA])) (Some (Records [bugDetectionB]))
          "2026-01-16T00:00:00.000Z".

(** No result file at all. *)
Definition emptyWorld : World := worldOf None None "2026-01-15T00:00:00.000Z".

(** Only the first participant has run. *)
Definition piOnlyWorld : World :=
  worldOf (Some (Records [bugDetectionA])) None "2026-01-15T00:00:00.000Z".

(** A record whose camelCase values are all present but falsy. *)
Definition falsyCamelRecord : Raw.TestResult :=
  {| Raw.testName := Some ""%string; Raw.test_name := Some "Bug Detection"%string;
     Raw.framework := "python-sdk"; Raw.model := "model";
     Raw.prompt := "Find the bug"; Raw.response := "Off by one";
     Raw.tokensIn := Some 0; Raw.tokens_in := Some 50;
     Raw.tokensOut := Some 0; Raw.tokens_out := Some 457;
     Raw.cost := 0;
     Raw.durationMs := Some 0; Raw.duration_ms := Some 8160;
     Raw.success := true; Raw.error := None |}%string.

(** Tasks on either side of the margin, a task without any data and a
    task that only the first participant ran. *)
Definition marginWorld : World :=
  worldOf (Some (Records [rawRecord "faster-pi" 899999 100 100 0 true;
                          rawRecord "faster-claude" 1000000 100 100 0 true;
                          rawRecord "close" 950 100 100 0 true;
                          rawRecord "no-data" 0 0 0 0 false;
                          rawRecord "pi-only" 500 100 2000 0 true]))
          (Some (Records [rawRecord "faster-pi" 1000000 100 100 0 true;
                          rawRecord "faster-claude" 899999 100 2000 0 true;
                          rawRecord "close" 1000 100 100 0 true;
                          rawRecord "no-data" 0 0 0 0 false]))
          "2026-01-15T00:00:00.000Z".

(** The report a world with well-formed files leads to, and its entry for
    a task. *)
Definition reportOf (w : World) : Report.t :=
  buildReport (loaded w PI_RESULTS) (loaded w CLAUDE_RESULTS) (now w).

Definition entryOf (w : World) (testName : string) : Comparison.t :=
  compareTest (loaded w PI_RESULTS) (loaded w CLAUDE_RESULTS) testName.

Definition bugDetectionEntry : Comparison.t := entryOf bugDetectionWorld "Bug Detection".

Definition tallyReport : Report.t := reportOf tallyWorld.

(** ** Further vocabulary *)

(** A normalised record read again as a raw one (in the script both have
    the type [TestResult]). *)
Definition asRaw (n : Normalised.TestResult) : Raw.TestResult :=
  {| Raw.testName := Some (Normalised.testName n); Raw.test_name := None;
     Raw.framework := Normalised.framework n; Raw.model := Normalised.model n;
     Raw.prompt := Normalised.prompt n; Raw.response := Normalised.response n;
     Raw.tokensIn := Some (Normalised.tokensIn n); Raw.tokens_in := None;
     Raw.tokensOut := Some (Normalised.tokensOut n); Raw.tokens_out := None;
     Raw.cost := Normalised.cost n;
     Raw.durationMs := Some (Normalised.durationMs n); Raw.duration_ms := None;
     Raw.success := Normalised.success n; Raw.error := Normalised.error n |}.

(** A verdict seen from the other participant's side. *)
Definition mirrorSpeed (v : SpeedWinner) : SpeedWinner :=
  match v with
  | speed_pi => speed_claude
  | speed_claude => speed_pi
  | speed_tie => speed_tie
  end.

Definition mirrorCost (v : CostWinner) : CostWinner :=
  match v with
  | cost_pi => cost_claude
  | cost_claude => cost_pi
  | cost_tie => cost_tie
  | cost_unknown => cost_unknown
  end.

(** The world in which the two result files have changed places. *)
Definition swapFiles (w : World) : World :=
  {| files := fun name =>
       if String.eqb name PI_RESULTS then files w CLAUDE_RESULTS
       else if String.eqb name CLAUDE_RESULTS then files w PI_RESULTS
       else files w name;
     now := now w |}.

(** The totals of a participant without any data. *)
Definition zeroTotals : Totals.t :=
  {| Totals.duration := 0; Totals.tokensIn := 0; Totals.tokensOut := 0;
     Totals.cost := 0; Totals.passed := O |}.

(** A number that is a defined, non-zero value or [+0]: neither [NaN] nor
    [-0]. *)
Definition plainNumber (x : number) : Prop :=
  is_nan x = false /\ ((x =? 0) = true -> x = 0).

(** A result set with two records for one task. *)
Definition duplicateWorld : World :=
  worldOf (Some (Records [rawRecord "Bug Detection" 7340 50 454 0 true;
                          rawRecord "Refactoring" 20520 120 1337 0 true;
                          rawRecord "Bug Detection" 9999 70 900 0 false]))
          (Some (Records [bugDetectionB]))
          "2026-01-15T00:00:00.000Z".

(** Only the second participant has run. *)
Definition claudeOnlyWorld : World :=
  worldOf None (Some (Records [bugDetectionB])) "2026-01-15T00:00:00.000Z".

(** A result file that holds an empty array. *)
Definition emptyArrayWorld : World :=
  worldOf (Some (Records [])) None "2026-01-15T00:00:00.000Z".


(** The same result set under both names. *)
Definition sameWorld : World :=
  worldOf (Some (Records [bugDetectionA; rawRecord "Refactoring" 20520 120 1337 0 true]))
          (Some (Records [bugDetectionA; rawRecord "Refactoring" 20520 120 1337 0 true]))
          "2026-01-15T00:00:00.000Z".

(** A record with a negative duration and both names populated. *)
Definition bothNamesRecord : Raw.TestResult :=
  {| Raw.testName := Some "Bug Detection"%string; Raw.test_name := Some "bug_detection"%string;
     Raw.framework := "sdk"; Raw.model := "model";
     Raw.prompt := "prompt"; Raw.response := "response";
     Raw.tokensIn := Some 50; Raw.tokens_in := Some 51;
     Raw.tokensOut := Some 454; Raw.tokens_out := Some 455;
     Raw.cost := 0;
     Raw.durationMs := Some (-5); Raw.duration_ms := Some 7340;
     Raw.success := true; Raw.error := None |}%string.

(** ** Ordering of binary64 values

    The comparisons of the script are decided on [spec_float], the
    bit-level description of binary64 that the primitive operations are
    specified against.  [rank] maps the non-negative values to integers in
    an order-preserving way: zero to [0], a finite [m * 2^e] to
    [m * 2^(e + 1200)] (the smallest exponent is [-1074]) and [+infinity] to
    [2^2300], above every finite value; negative values and [NaN] are
    sent to [-1] and play no part. *)

Module Binary64.
Local Open Scope Z_scope.

Definition scaled (m : positive) (e : Z) : Z := Zpos m * 2 ^ (e + 1200).

Definition rank (x : spec_float) : Z :=
  match x with
  | S754_zero _ => 0
  | S754_finite false m e => scaled m e
  | S754_infinity false => 2 ^ 2300
  | _ => -1
  end.

(** The value of a finite non-negative double, times [2^1200]: an
    integer, by which equations and inequalities between the values of
    doubles can be stated exactly, without rounding. *)
Definition exact (x : float) : Z := rank (Prim2SF x).

(** The values with a plus sign: [+0], the positive finite doubles and
    [+infinity]. *)
Definition isPlus (x : spec_float) : bool :=
  match x with
  | S754_zero false | S754_finite false _ _ | S754_infinity false => true
  | _ => false
  end.

(** Every value but [-0]. *)
Definition notNegZero (x : spec_float) : bool :=
  match x with
  | S754_zero true => false
  | _ => true
  end.

Definition nonneg (x : spec_float) : bool :=
  match x with
  | S754_zero _ | S754_finite false _ _ | S754_infinity false => true
  | _ => false
  end.

(** [shr_inv k M mrs]: the mantissa of [mrs] is [M] shifted right by [k]
    bits, the lost bits being [rem]; the round bit is set only when the
    lost bits make up at least half a unit. *)
Definition shr_inv (k M : Z) (mrs : shr_record) : Prop :=
  exists rem, M = shr_m mrs * 2 ^ k + rem /\ 0 <= rem < 2 ^ k /\ 0 <= shr_m mrs /\
              (shr_r mrs = true -> 2 ^ k <= 2 * rem).

Lemma digits2_bounds (m : positive) :
  2 ^ (Zpos (digits2_pos m) - 1) <= Zpos m < 2 ^ Zpos (digits2_pos m).
Proof.
  induction m as [m IH | m IH |]; cbn [digits2_pos].
  - rewrite Pos2Z.inj_succ, Z.pow_succ_r by lia.
    replace (Z.succ (Zpos (digits2_pos m)) - 1) with (Z.succ (Zpos (digits2_pos m) - 1)) by lia.
    rewrite Z.pow_succ_r by lia. lia.
  - rewrite Pos2Z.inj_succ, Z.pow_succ_r by lia.
    replace (Z.succ (Zpos (digits2_pos m)) - 1) with (Z.succ (Zpos (digits2_pos m) - 1)) by lia.
    rewrite Z.pow_succ_r by lia. lia.
  - cbn. lia.
Qed.

Lemma bounded_inv m e :
  bounded prec emax m e = true ->
  -1074 <= e <= 971 /\ Z.max (Zpos (digits2_pos m) + e - 53) (-1074) = e.
Proof.
  unfold bounded, canonical_mantissa, fexp, SpecFloat.emin, prec, emax.
  intros H. apply andb_true_iff in H. destruct H as [H1 H2].
  apply Z.eqb_eq in H1. apply Z.leb_le in H2. lia.
Qed.


Lemma mantissa_lt_2p53 m e :
  bounded prec emax m e = true -> Zpos m < 2 ^ 53.
Proof.
  intros H. apply bounded_inv in H. destruct H as [_ H].
  pose proof (digits2_bounds m) as [_ Hd].
  eapply Z.lt_le_trans; [exact Hd|].
  apply Z.pow_le_mono_r; lia.
Qed.

Lemma scaled_pos m e : -1200 <= e -> 0 < scaled m e.
Proof.
  intros He. unfold scaled.
  apply Z.mul_pos_pos; [lia|]. apply Z.pow_pos_nonneg; lia.
Qed.

Lemma scaled_lt_exp m1 e1 m2 e2 :
  bounded prec emax m1 e1 = true -> bounded prec emax m2 e2 = true ->
  e1 < e2 -> scaled m1 e1 < scaled m2 e2.
Proof.
  intros B1 B2 Hlt.
  pose proof (mantissa_lt_2p53 _ _ B1) as Hm1.
  apply bounded_inv in B1. apply bounded_inv in B2.
  destruct B1 as [R1 _]. destruct B2 as [R2 C2].
  assert (Hd2 : Zpos (digits2_pos m2) = 53) by lia.
  pose proof (digits2_bounds m2) as [Hm2 _]. rewrite Hd2 in Hm2.
  change (53 - 1) with 52 in Hm2.
  unfold scaled.
  assert (Hp : 2 * 2 ^ (e1 + 1200) <= 2 ^ (e2 + 1200)).
  { rewrite <- Z.pow_succ_r by lia. apply Z.pow_le_mono_r; lia. }
  assert (Hq : 0 < 2 ^ (e1 + 1200)) by (apply Z.pow_pos_nonneg; lia).
  change (2 ^ 53) with (2 * 2 ^ 52) in Hm1.
  nia.
Qed.

Lemma scaled_lt_max m e :
  bounded prec emax m e = true -> scaled m e < 2 ^ 2224.
Proof.
  intros B. pose proof (mantissa_lt_2p53 _ _ B) as Hm.
  apply bounded_inv in B. destruct B as [R _]. unfold scaled.
  assert (Hp : 2 ^ (e + 1200) <= 2 ^ 2171) by (apply Z.pow_le_mono_r; lia).
  assert (Hq : 0 < 2 ^ (e + 1200)) by (apply Z.pow_pos_nonneg; lia).
  replace (2 ^ 2224) with (2 ^ 53 * 2 ^ 2171) by (rewrite <- Z.pow_add_r by lia; reflexivity).
  nia.
Qed.

Lemma scaled_lt_inf m e :
  bounded prec emax m e = true -> scaled m e < 2 ^ 2300.
Proof.
  intros B. apply scaled_lt_max in B.
  assert (2 ^ 2224 <= 2 ^ 2300) by (apply Z.pow_le_mono_r; lia). lia.
Qed.

Lemma SFcompare_rank a b :
  valid_binary a = true -> valid_binary b = true ->
  nonneg a = true -> nonneg b = true ->
  match SFcompare a b with
  | Some Lt => rank a < rank b
  | Some Eq => rank a = rank b
  | Some Gt => rank b < rank a
  | None => False
  end.
Proof.
  intros Va Vb Na Nb.
  destruct a as [sa | [|] | | [|] ma ea], b as [sb | [|] | | [|] mb eb];
    try discriminate; cbn [SFcompare rank valid_binary] in *;
    try reflexivity; try (apply Z.pow_pos_nonneg; lia);
    try (apply scaled_pos; apply bounded_inv in Va; lia);
    try (apply scaled_pos; apply bounded_inv in Vb; lia);
    try (apply scaled_lt_inf; assumption).
  destruct (Z.compare_spec ea eb) as [Heq | Hlt | Hgt].
  - subst eb. change (Pos.compare_cont Eq ma mb) with (Pos.compare ma mb).
    assert (Hq : 0 < 2 ^ (ea + 1200)).
    { apply Z.pow_pos_nonneg; [lia|]. apply bounded_inv in Va. lia. }
    unfold scaled.
    destruct (Pos.compare_spec ma mb) as [E | L | G].
    + subst; reflexivity.
    + apply Z.mul_lt_mono_pos_r; [assumption|lia].
    + apply Z.mul_lt_mono_pos_r; [assumption|lia].
  - apply scaled_lt_exp; assumption.
  - apply scaled_lt_exp; assumption.
Qed.

Lemma SFltb_rank a b :
  valid_binary a = true -> valid_binary b = true ->
  nonneg a = true -> nonneg b = true ->
  SFltb a b = true -> rank a < rank b.
Proof.
  intros Va Vb Na Nb. pose proof (SFcompare_rank a b Va Vb Na Nb) as H.
  unfold SFltb. destruct (SFcompare a b) as [[| |]|]; try discriminate. intros _; exact H.
Qed.

Lemma SFleb_rank a b :
  valid_binary a = true -> valid_binary b = true ->
  nonneg a = true -> nonneg b = true ->
  SFleb a b = true -> rank a <= rank b.
Proof.
  intros Va Vb Na Nb. pose proof (SFcompare_rank a b Va Vb Na Nb) as H.
  unfold SFleb. destruct (SFcompare a b) as [[| |]|]; try discriminate; intros _; lia.
Qed.


Lemma shr_inv_init M : 0 <= M -> shr_inv 0 M (Build_shr_record M false false).
Proof. intros HM. exists 0. cbn. repeat split; try lia; discriminate. Qed.

Lemma shr_inv_step k M mrs :
  0 <= k -> shr_inv k M mrs -> shr_inv (k + 1) M (shr_1 mrs).
Proof.
  intros Hk (rem & HM & Hrem & Hpos & _).
  assert (Hp : 2 ^ (k + 1) = 2 * 2 ^ k) by (rewrite Z.pow_add_r by lia; lia).
  destruct mrs as [m r s]. cbn [shr_m] in *.
  destruct m as [| [p | p |] | p]; cbn [shr_1]; try lia.
  - exists rem. cbn [shr_m shr_r]. rewrite Hp. repeat split; try lia; discriminate.
  - exists (2 ^ k + rem). cbn [shr_m shr_r]. rewrite Hp. repeat split; lia.
  - exists rem. cbn [shr_m shr_r]. rewrite Hp. repeat split; try lia; discriminate.
  - exists (2 ^ k + rem). cbn [shr_m shr_r]. rewrite Hp. repeat split; lia.
Qed.

Lemma shr_inv_iter p : forall k M mrs,
  0 <= k -> shr_inv k M mrs -> shr_inv (k + Zpos p) M (SpecFloat.iter_pos shr_1 p mrs).
Proof.
  induction p as [p IH | p IH |]; intros k M mrs Hk H; cbn [SpecFloat.iter_pos].
  - replace (k + Zpos p~1) with (k + 1 + Zpos p + Zpos p) by lia.
    apply IH; [lia|]. apply IH; [lia|]. apply shr_inv_step; assumption.
  - replace (k + Zpos p~0) with (k + Zpos p + Zpos p) by lia.
    apply IH; [lia|]. apply IH; assumption.
  - apply shr_inv_step; assumption.
Qed.

Lemma shr_spec M e n :
  0 <= M ->
  exists mrs, shr (Build_shr_record M false false) e n = (mrs, e + Z.max 0 n) /\
              shr_inv (Z.max 0 n) M mrs.
Proof.
  intros HM. destruct n as [| p | p]; cbn [shr].
  - eexists; split; [f_equal; cbn; lia|]. apply shr_inv_init; assumption.
  - eexists; split; [f_equal; cbn; lia|].
    replace (Z.max 0 (Zpos p)) with (0 + Zpos p) by lia.
    apply shr_inv_iter; [lia|]. apply shr_inv_init; assumption.
  - eexists; split; [f_equal; cbn; lia|]. apply shr_inv_init; assumption.
Qed.

(** Rounding to nearest keeps the truncated mantissa or adds one to it,
    and adds one only when the round bit is set. *)
Lemma round_nearest_even_cases (mrs : shr_record) :
  round_nearest_even (shr_m mrs) (loc_of_shr_record mrs) = shr_m mrs \/
  (round_nearest_even (shr_m mrs) (loc_of_shr_record mrs) = shr_m mrs + 1 /\
   shr_r mrs = true).
Proof.
  destruct mrs as [m [|] [|]]; cbn [shr_m shr_r loc_of_shr_record round_nearest_even];
    try destruct (Z.even m); auto.
Qed.

(** Rounding to nearest never goes below the truncated mantissa, nor above
    a multiple of the lost weight that lies strictly above the exact
    value. *)
Lemma round_nearest_even_bound k M mrs q :
  0 <= k -> shr_inv k M mrs -> M < q * 2 ^ k ->
  shr_m mrs <= round_nearest_even (shr_m mrs) (loc_of_shr_record mrs) <= q.
Proof.
  intros Hk (rem & HM & Hrem & Hpos & _) HB.
  assert (Hp : 0 < 2 ^ k) by (apply Z.pow_pos_nonneg; lia).
  assert (Hmq : shr_m mrs < q).
  { apply Z.nle_gt. intros Hle.
    assert (q * 2 ^ k <= shr_m mrs * 2 ^ k) by (apply Z.mul_le_mono_nonneg_r; lia). lia. }
  destruct (round_nearest_even_cases mrs) as [-> | [-> _]]; lia.
Qed.

Lemma pow2_lt_inv a b : 0 <= b -> 2 ^ a < 2 ^ b -> a < b.
Proof.
  intros Hb H. apply Z.nle_gt. intros Hle.
  assert (2 ^ b <= 2 ^ a) by (apply Z.pow_le_mono_r; lia). lia.
Qed.

(** Multiplying a positive finite double [m * 2^e] by a positive factor
    below one (mantissa [mc] at exponent [-53]) rounds to a non-negative
    double that is not larger, and that is less than [2^e] below the
    exact product. *)
Lemma SFmul_below_one m e mc :
  bounded prec emax m e = true -> Zpos mc < 2 ^ 53 ->
  let r := SFmul prec emax (S754_finite false m e) (S754_finite false mc (-53)) in
  nonneg r = true /\
  rank r <= scaled m e /\
  scaled m e * Zpos mc < (rank r + 2 ^ (e + 1200)) * 2 ^ 53 /\
  (2 ^ 52 <= Zpos mc -> 10 * Zpos mc <= 9 * 2 ^ 53 + 2 ->
   forall mf ef, bounded prec emax mf ef = true ->
     9 * scaled m e <= 10 * scaled mf ef -> rank r <= scaled mf ef).
Proof.
  intros B Hmc.
  pose proof (mantissa_lt_2p53 _ _ B) as Hm.
  pose proof (digits2_bounds m) as [Hdmlo Hdm].
  pose proof (digits2_bounds (m * mc)) as [Hdlo Hdhi].
  apply bounded_inv in B. destruct B as [Re Can].
  cbn [SFmul xorb]. unfold binary_round_aux, shr_fexp.
  cbn [shr_record_of_loc Zdigits2].
  set (M := Zpos (m * mc)).
  set (n1 := fexp prec emax (Zpos (digits2_pos (m * mc)) + (e + -53)) - (e + -53)).
  destruct (shr_spec M (e + -53) n1) as (mrs1 & E1 & I1); [subst M; lia|].
  rewrite E1.
  set (k1 := Z.max 0 n1) in *.
  set (m1 := round_nearest_even (shr_m mrs1) (loc_of_shr_record mrs1)).
  (* the product has at most [digits m + 53] digits *)
  assert (Hd : Zpos (digits2_pos (m * mc)) <= Zpos (digits2_pos m) + 53).
  { assert (Hlt : 2 ^ (Zpos (digits2_pos (m * mc)) - 1) < 2 ^ (Zpos (digits2_pos m) + 53)).
    { eapply Z.le_lt_trans; [exact Hdlo|].
      rewrite Z.pow_add_r by lia. rewrite Pos2Z.inj_mul.
      apply Z.mul_lt_mono_nonneg; lia. }
    apply pow2_lt_inv in Hlt; lia. }
  assert (Hk1 : 0 <= k1 <= 53).
  { subst k1 n1. unfold fexp, SpecFloat.emin, prec, emax. lia. }
  assert (He1 : -1074 <= e + -53 + k1 <= e).
  { subst k1 n1. unfold fexp, SpecFloat.emin, prec, emax. lia. }
  assert (Hm1 : shr_m mrs1 <= m1 <= Zpos m * 2 ^ (53 - k1)).
  { subst m1. apply round_nearest_even_bound with (k := k1) (M := M); [lia|assumption|].
    rewrite <- Z.mul_assoc, <- Z.pow_add_r by lia.
    replace (53 - k1 + k1) with 53 by lia.
    subst M. rewrite Pos2Z.inj_mul. apply Z.mul_lt_mono_pos_l; lia. }
  destruct I1 as (rem1 & HM1 & Hrem1 & Hpos1 & Hround1).
  set (e1 := e + -53 + k1) in *.
  set (n2 := fexp prec emax (Zdigits2 m1 + e1) - e1).
  destruct (shr_spec m1 e1 n2) as (mrs2 & E2 & I2); [lia|].
  change (shr_record_of_loc m1 loc_Exact) with (Build_shr_record m1 false false).
  rewrite E2.
  destruct I2 as (rem2 & Hm2 & Hrem2 & Hpos2 & _).
  set (k2 := Z.max 0 n2) in *.
  (* the exponent of the result does not exceed [e] *)
  assert (He2 : e1 + k2 <= e).
  { destruct (Z_le_gt_dec n2 0) as [Hn | Hn]; [subst k2; lia|].
    assert (Hdig : 53 < Zdigits2 m1 /\ k2 = Zdigits2 m1 - 53).
    { subst k2 n2. revert Hn. unfold fexp, SpecFloat.emin, prec, emax. lia. }
    destruct Hdig as [Hbig Hk2].
    destruct m1 as [| p1 | p1]; cbn [Zdigits2] in *; try lia.
    pose proof (digits2_bounds p1) as [Hlo _].
    assert (Hlt : 2 ^ (Zpos (digits2_pos p1) - 1) < 2 ^ (106 - k1)).
    { eapply Z.le_lt_trans; [exact Hlo|].
      eapply Z.le_lt_trans; [apply Hm1|].
      replace (106 - k1) with (53 + (53 - k1)) by lia.
      rewrite Z.pow_add_r by lia.
      apply Z.mul_lt_mono_pos_r; [apply Z.pow_pos_nonneg; lia|assumption]. }
    apply pow2_lt_inv in Hlt; lia. }
  assert (Hk2 : 0 <= k2) by (subst k2; lia).
  (* the mantissa of the result, at weight [2^(k1+k2)], against the exact product *)
  set (m2 := shr_m mrs2) in *.
  set (P1 := 2 ^ k1) in *. set (P2 := 2 ^ k2) in *.
  assert (HP1 : 0 < P1) by (apply Z.pow_pos_nonneg; lia).
  assert (HP2 : 0 < P2) by (apply Z.pow_pos_nonneg; lia).
  assert (Hsplit : 2 ^ 53 = 2 ^ (53 - k1 - k2) * (P1 * P2)).
  { subst P1 P2. rewrite <- !Z.pow_add_r by lia. f_equal. lia. }
  assert (Hsplit1 : 2 ^ (53 - k1) = 2 ^ (53 - k1 - k2) * P2).
  { subst P2. rewrite <- Z.pow_add_r by lia. f_equal. lia. }
  assert (HR : 1 <= 2 ^ (53 - k1 - k2)) by (apply Z.lt_pred_le, Z.pow_pos_nonneg; lia).
  set (R := 2 ^ (53 - k1 - k2)) in *.
  assert (Hupper : m2 * (P1 * P2) <= Zpos m * 2 ^ 53).
  { rewrite Hsplit. rewrite Hsplit1 in Hm1.
    replace (m2 * (P1 * P2)) with ((m2 * P2) * P1) by ring.
    replace (Zpos m * (R * (P1 * P2))) with ((Zpos m * (R * P2)) * P1) by ring.
    apply Z.mul_le_mono_nonneg_r; lia. }
  assert (Hlower : M < m2 * (P1 * P2) + 2 ^ 53).
  { rewrite Hsplit.
    assert (A1 : (shr_m mrs1 + 1) * P1 <= (m2 * P2 + P2) * P1)
      by (apply Z.mul_le_mono_nonneg_r; lia).
    assert (A2 : 1 * (P1 * P2) <= R * (P1 * P2)).
    { apply Z.mul_le_mono_nonneg_r; [|lia]. apply Z.mul_nonneg_nonneg; lia. }
    lia. }
  (* back to ranks: everything is a multiple of [2^(e - 53 + 1200)] *)
  set (W := 2 ^ (e + -53 + 1200)).
  assert (HW : 0 < W) by (apply Z.pow_pos_nonneg; lia).
  assert (Hres : 2 ^ (e1 + k2 + 1200) = P1 * P2 * W).
  { subst P1 P2 W e1. rewrite <- !Z.pow_add_r by lia. f_equal. lia. }
  assert (Hs : scaled m e = Zpos m * 2 ^ 53 * W).
  { unfold scaled. subst W. rewrite <- Z.mul_assoc, <- Z.pow_add_r by lia.
    do 2 f_equal. lia. }
  assert (Hu : 2 ^ (e + 1200) = 2 ^ 53 * W).
  { subst W. rewrite <- Z.pow_add_r by lia. f_equal. lia. }
  assert (HMm : M = Zpos m * Zpos mc) by (subst M; apply Pos2Z.inj_mul).
  (* the rounded mantissa [m1] at weight [P1 * W] is a nearest double: no
     double that is at least nine tenths of [m * 2^e] lies below it *)
  assert (Hnear : 2 ^ 52 <= Zpos mc -> 10 * Zpos mc <= 9 * 2 ^ 53 + 2 ->
            forall mf ef, bounded prec emax mf ef = true ->
              9 * scaled m e <= 10 * scaled mf ef -> m1 * (P1 * W) <= scaled mf ef).
  { intros Hmclo Hmc10 mf ef Bf H9. apply Z.nlt_ge. intros Hlt.
    pose proof (mantissa_lt_2p53 _ _ Bf) as Hmf.
    apply bounded_inv in Bf. destruct Bf as [Ref _].
    (* the product has at least [digits m + 52] digits *)
    assert (Hdl : Zpos (digits2_pos m) + 52 <= Zpos (digits2_pos (m * mc))).
    { assert (Hlt' : 2 ^ (Zpos (digits2_pos m) + 51) < 2 ^ Zpos (digits2_pos (m * mc))).
      { eapply Z.le_lt_trans; [|exact Hdhi]. rewrite Pos2Z.inj_mul.
        replace (Zpos (digits2_pos m) + 51) with ((Zpos (digits2_pos m) - 1) + 52) by lia.
        rewrite Z.pow_add_r by lia.
        apply Z.mul_le_mono_nonneg; first [lia | apply Z.pow_nonneg; lia]. }
      apply pow2_lt_inv in Hlt'; lia. }
    assert (Hk1lo : 52 <= k1).
    { subst k1 n1. unfold fexp, SpecFloat.emin, prec, emax. lia. }
    assert (He1eq : e1 = Z.max (Zpos (digits2_pos (m * mc)) + e - 106) (-1074)).
    { subst e1 k1 n1. unfold fexp, SpecFloat.emin, prec, emax. lia. }
    assert (HP1lo : 2 ^ 52 <= P1) by (subst P1; apply Z.pow_le_mono_r; lia).
    assert (Hunit : P1 * W = 2 ^ (e1 + 1200)).
    { subst P1 W e1. rewrite <- Z.pow_add_r by lia. f_equal. lia. }
    set (u := P1 * W) in *.
    assert (Hupos : 0 < u) by (rewrite Hunit; apply Z.pow_pos_nonneg; lia).
    assert (HXlo : shr_m mrs1 * u + rem1 * W = M * W) by (subst u; rewrite HM1; ring).
    assert (Hremw : 0 <= rem1 * W) by (apply Z.mul_nonneg_nonneg; lia).
    assert (Hcases : m1 = shr_m mrs1 \/ (m1 = shr_m mrs1 + 1 /\ u <= 2 * (rem1 * W))).
    { subst m1. destruct (round_nearest_even_cases mrs1) as [-> | [-> Hr]]; [left; reflexivity|].
      right. split; [reflexivity|]. specialize (Hround1 Hr). subst u.
      replace (2 * (rem1 * W)) with ((2 * rem1) * W) by ring.
      apply Z.mul_le_mono_nonneg_r; lia. }
    (* the gap between the exact product and the double below *)
    assert (Hgap : u <= 2 * (M * W) - 2 * scaled mf ef).
    { unfold scaled in *. destruct (Z_le_gt_dec e1 ef) as [Hge | Hlow].
      - assert (Hpw : 2 ^ (ef + 1200) = 2 ^ (ef - e1) * u).
        { rewrite Hunit, <- Z.pow_add_r by lia. f_equal. lia. }
        rewrite Hpw in *. set (g := Zpos mf * 2 ^ (ef - e1)).
        replace (Zpos mf * (2 ^ (ef - e1) * u)) with (g * u) in * by (subst g; ring).
        assert (Hg : g < m1) by (apply Z.mul_lt_mono_pos_r with (p := u); assumption).
        assert (Hgu : g * u <= (m1 - 1) * u) by (apply Z.mul_le_mono_nonneg_r; lia).
        destruct Hcases as [Hc | [Hc Hhalf]]; rewrite Hc in Hgu.
        + clear - Hgu HXlo Hremw Hupos. lia.
        + clear - Hgu HXlo Hhalf Hupos. lia.
      - assert (Hm'lo : 2 ^ 52 <= shr_m mrs1).
        { assert (He1k : e1 = e + -53 + k1) by reflexivity.
          assert (Hk1d : k1 = Zpos (digits2_pos (m * mc)) - 53)
            by (clear - He1eq He1k Hlow Ref; lia).
          assert (HMlo : 2 ^ 52 * P1 <= M).
          { eapply Z.le_trans; [|exact Hdlo]. subst P1. rewrite <- Z.pow_add_r by lia.
            apply Z.pow_le_mono_r; lia. }
          apply Z.lt_succ_r. apply Z.mul_lt_mono_pos_r with (p := P1); [exact HP1|].
          clear - HMlo HM1 Hrem1. lia. }
        assert (Hpw : 2 * 2 ^ (ef + 1200) <= u).
        { rewrite Hunit. replace (2 * 2 ^ (ef + 1200)) with (2 ^ (ef + 1 + 1200))
            by (replace (ef + 1 + 1200) with (Z.succ (ef + 1200)) by lia;
                rewrite Z.pow_succ_r by lia; reflexivity).
          apply Z.pow_le_mono_r; lia. }
        assert (H2F : 2 * (Zpos mf * 2 ^ (ef + 1200)) <= Zpos mf * u).
        { replace (2 * (Zpos mf * 2 ^ (ef + 1200))) with (Zpos mf * (2 * 2 ^ (ef + 1200))) by ring.
          apply Z.mul_le_mono_nonneg_l; lia. }
        assert (Hmfu : Zpos mf * u <= (2 * shr_m mrs1 - 1) * u).
        { apply Z.mul_le_mono_nonneg_r; [lia|].
          change (2 ^ 53) with (2 * 2 ^ 52) in Hmf. clear - Hmf Hm'lo. lia. }
        clear - H2F Hmfu HXlo Hremw Hupos. lia. }
    (* yet the exact product exceeds nine tenths by a fifth of [m * W] only *)
    assert (H10 : 10 * (M * W) <= 9 * scaled m e + 2 * (Zpos m * W)).
    { rewrite Hs, HMm.
      replace (10 * (Zpos m * Zpos mc * W)) with ((10 * Zpos mc) * (Zpos m * W)) by ring.
      replace (9 * (Zpos m * 2 ^ 53 * W) + 2 * (Zpos m * W))
        with ((9 * 2 ^ 53 + 2) * (Zpos m * W)) by ring.
      apply Z.mul_le_mono_nonneg_r; [|exact Hmc10].
      apply Z.mul_nonneg_nonneg; lia. }
    assert (H5 : 5 * (P1 * W) <= (2 * Zpos m) * W) by (fold u; clear - Hgap H10 H9; lia).
    replace (5 * (P1 * W)) with ((5 * P1) * W) in H5 by ring.
    apply Z.mul_le_mono_pos_r in H5; [|exact HW].
    change (2 ^ 52) with 4503599627370496 in HP1lo.
    change (2 ^ 53) with 9007199254740992 in Hm. clear - H5 HP1lo Hm. lia. }
  assert (Hm2m1 : m2 * (P1 * P2 * W) <= m1 * (P1 * W)).
  { replace (m2 * (P1 * P2 * W)) with ((m2 * P2) * (P1 * W)) by ring.
    apply Z.mul_le_mono_nonneg_r; [|lia].
    apply Z.mul_nonneg_nonneg; lia. }
  assert (Hrank : forall r, rank r = m2 * (P1 * P2 * W) ->
            rank r <= scaled m e /\
            scaled m e * Zpos mc < (rank r + 2 ^ (e + 1200)) * 2 ^ 53 /\
            (2 ^ 52 <= Zpos mc -> 10 * Zpos mc <= 9 * 2 ^ 53 + 2 ->
             forall mf ef, bounded prec emax mf ef = true ->
               9 * scaled m e <= 10 * scaled mf ef -> rank r <= scaled mf ef)).
  { intros r Hr. rewrite Hr, Hs, Hu. split; [|split].
    - rewrite Z.mul_assoc. apply Z.mul_le_mono_nonneg_r; lia.
    - replace (Zpos m * 2 ^ 53 * W * Zpos mc) with (M * (2 ^ 53 * W)) by (rewrite HMm; ring).
      replace ((m2 * (P1 * P2 * W) + 2 ^ 53 * W) * 2 ^ 53)
        with ((m2 * (P1 * P2) + 2 ^ 53) * (2 ^ 53 * W)) by ring.
      apply Z.mul_lt_mono_pos_r; [|exact Hlower].
      apply Z.mul_pos_pos; [apply Z.pow_pos_nonneg; lia | exact HW].
    - intros Hmclo Hmc10 mf ef Bf H9. rewrite <- Hs in H9.
      eapply Z.le_trans; [exact Hm2m1|]. apply (Hnear Hmclo Hmc10 mf ef Bf H9). }
  destruct m2 as [| p2 | p2] eqn:Em2; [| |lia].
  - split; [reflexivity|]. apply Hrank. reflexivity.
  - replace (e1 + k2 <=? emax - prec) with true
      by (symmetry; apply Z.leb_le; unfold emax, prec; lia).
    split; [reflexivity|]. apply Hrank.
    cbn [rank]. unfold scaled. rewrite Hres. reflexivity.
Qed.

(** *** From primitive floats to their specification *)

Lemma exact_one : exact 1%float = 2 ^ 1200.
Proof. vm_compute. reflexivity. Qed.

Lemma exact_integers :
  exact 899999%float = 899999 * 2 ^ 1200 /\ exact 1000000%float = 1000000 * 2 ^ 1200.
Proof. split; vm_compute; reflexivity. Qed.

Lemma Prim2SF_zero : Prim2SF 0%float = S754_zero false.
Proof. reflexivity. Qed.

Lemma Prim2SF_margin : Prim2SF 0.9%float = S754_finite false 8106479329266893 (-53).
Proof. vm_compute. reflexivity. Qed.

Lemma positive_inv (x : float) :
  (0 <? x)%float = true ->
  (exists m e, Prim2SF x = S754_finite false m e) \/ Prim2SF x = S754_infinity false.
Proof.
  rewrite FloatAxioms.ltb_spec, Prim2SF_zero.
  destruct (Prim2SF x) as [s | [|] | | [|] m e]; cbn; try discriminate; eauto.
Qed.

Lemma positive_nonneg (x : float) : (0 <? x)%float = true -> nonneg (Prim2SF x) = true.
Proof.
  intros H. destruct (positive_inv x H) as [(m & e & E) | E]; rewrite E; reflexivity.
Qed.

Lemma SFeqb_refl_finite s m e : SFeqb (S754_finite s m e) (S754_finite s m e) = true.
Proof.
  unfold SFeqb. cbn [SFcompare].
  change (Pos.compare_cont Eq m m) with (Pos.compare m m).
  rewrite Z.compare_refl, Pos.compare_refl. destruct s; reflexivity.
Qed.

Lemma positive_toBoolean (x : number) : (0 <? x)%float = true -> toBoolean x = true.
Proof.
  intros H. unfold toBoolean, number_ToBoolean, is_nan, is_zero.
  rewrite !FloatAxioms.eqb_spec. change (Prim2SF PrimFloat.zero) with (S754_zero false).
  destruct (positive_inv x H) as [(m & e & E) | E]; rewrite E.
  - rewrite SFeqb_refl_finite. reflexivity.
  - reflexivity.
Qed.

Lemma zero_not_positive (x : float) : (x =? 0)%float = true -> (0 <? x)%float = false.
Proof.
  rewrite FloatAxioms.eqb_spec, FloatAxioms.ltb_spec, Prim2SF_zero.
  destruct (Prim2SF x) as [s | [|] | | [|] m e]; cbn; congruence.
Qed.

Lemma zero_toBoolean (x : number) : (x =? 0)%float = true -> toBoolean x = false.
Proof.
  intros H. unfold toBoolean, number_ToBoolean, is_zero.
  change PrimFloat.zero with 0%float. rewrite H. destruct (is_nan x); reflexivity.
Qed.

Lemma ltb_rank (x y : float) :
  nonneg (Prim2SF x) = true -> nonneg (Prim2SF y) = true ->
  (x <? y)%float = true -> rank (Prim2SF x) < rank (Prim2SF y).
Proof.
  intros Nx Ny H. rewrite FloatAxioms.ltb_spec in H.
  apply SFltb_rank; auto using Prim2SF_valid.
Qed.

Lemma leb_rank (x y : float) :
  nonneg (Prim2SF x) = true -> nonneg (Prim2SF y) = true ->
  (x <=? y)%float = true -> rank (Prim2SF x) <= rank (Prim2SF y).
Proof.
  intros Nx Ny H. rewrite FloatAxioms.leb_spec in H.
  apply SFleb_rank; auto using Prim2SF_valid.
Qed.

(** Nine tenths of a positive double, as the script computes it, is a
    non-negative double that is not larger. *)
Lemma mul_margin_rank (x : float) :
  (0 <? x)%float = true ->
  nonneg (Prim2SF (x * 0.9)%float) = true /\
  rank (Prim2SF (x * 0.9)%float) <= rank (Prim2SF x).
Proof.
  intros H. rewrite FloatAxioms.mul_spec, Prim2SF_margin.
  pose proof (Prim2SF_valid x) as V.
  destruct (positive_inv x H) as [(m & e & E) | E]; rewrite E in *.
  - destruct (SFmul_below_one m e 8106479329266893 V eq_refl) as (N & U & _ & _).
    split; assumption.
  - cbn. split; [reflexivity | lia].
Qed.

(** Two positive doubles cannot each be strictly below nine tenths of the
    other. *)
Lemma margin_exclusive (x y : float) :
  (0 <? x)%float = true -> (0 <? y)%float = true ->
  (x <? y * 0.9)%float = true -> (y <? x * 0.9)%float = false.
Proof.
  intros Hx Hy Hlt.
  destruct (mul_margin_rank x Hx) as [Nx' Rx].
  destruct (mul_margin_rank y Hy) as [Ny' Ry].
  pose proof (positive_nonneg x Hx) as Nx.
  pose proof (positive_nonneg y Hy) as Ny.
  apply ltb_rank in Hlt; trivial.
  destruct (y <? x * 0.9)%float eqn:Hgt; [|reflexivity].
  apply ltb_rank in Hgt; trivial. lia.
Qed.

(** When the smaller of two positive doubles is at least nine tenths of
    the larger, neither is strictly below nine tenths of the other. *)
Lemma margin_within (x y : float) :
  (0 <? x)%float = true -> (0 <? y)%float = true ->
  (x <=? y)%float = true -> (y * 0.9 <=? x)%float = true ->
  (x <? y * 0.9)%float = false /\ (y <? x * 0.9)%float = false.
Proof.
  intros Hx Hy Hle Hm.
  destruct (mul_margin_rank x Hx) as [Nx' Rx].
  destruct (mul_margin_rank y Hy) as [Ny' Ry].
  pose proof (positive_nonneg x Hx) as Nx.
  pose proof (positive_nonneg y Hy) as Ny.
  apply leb_rank in Hle; trivial. apply leb_rank in Hm; trivial.
  split.
  - destruct (x <? y * 0.9)%float eqn:H; [|reflexivity].
    apply ltb_rank in H; trivial. lia.
  - destruct (y <? x * 0.9)%float eqn:H; [|reflexivity].
    apply ltb_rank in H; trivial. lia.
Qed.

(** A mantissa [m] at exponent [e] whose value is [1000000/899999] times
    that of another double is at least [10^6]. *)
Lemma mantissa_of_ratio m e mf ef :
  bounded prec emax m e = true -> bounded prec emax mf ef = true ->
  1000000 * scaled mf ef = 899999 * scaled m e ->
  1000000 <= Zpos m.
Proof.
  intros B Bf Heq.
  pose proof (digits2_bounds m) as [Hlo _].
  apply bounded_inv in B. apply bounded_inv in Bf.
  destruct B as [Re Can]. destruct Bf as [Ref _].
  destruct (Z.eq_dec (Zpos (digits2_pos m)) 53) as [D | D].
  - rewrite D in Hlo. change (2 ^ (53 - 1)) with 4503599627370496 in Hlo. lia.
  - assert (He : e = -1074) by lia. subst e.
    unfold scaled in Heq.
    replace (ef + 1200) with ((ef + 1074) + (-1074 + 1200)) in Heq by lia.
    rewrite Z.pow_add_r in Heq by lia.
    assert (Hu : 0 < 2 ^ (-1074 + 1200)) by (apply Z.pow_pos_nonneg; lia).
    set (U := 2 ^ (-1074 + 1200)) in *. set (A := 2 ^ (ef + 1074)) in *.
    assert (Hdiv : 1000000 * (Zpos mf * A) = 899999 * Zpos m).
    { apply Z.mul_reg_r with (p := U); lia. }
    assert (Hd : (1000000 | Zpos m)).
    { apply Z.gauss with (m := 899999); [|reflexivity].
      exists (Zpos mf * A). lia. }
    apply Z.divide_pos_le in Hd; lia.
Qed.

(** When a positive double is exactly [0.899999] times another, that is,
    10.0001% below it, it is strictly below nine tenths of the other as the
    script computes them. *)
Lemma margin_exact_win (f s : float) :
  (0 <? f)%float = true -> (0 <? s)%float = true ->
  1000000 * exact f = 899999 * exact s ->
  (f <? s * 0.9)%float = true.
Proof.
  unfold exact. intros Hf Hs Heq.
  rewrite FloatAxioms.ltb_spec, FloatAxioms.mul_spec, Prim2SF_margin.
  pose proof (Prim2SF_valid f) as Vf. pose proof (Prim2SF_valid s) as Vs.
  pose proof (Prim2SF_valid (s * 0.9)%float) as Vr.
  rewrite FloatAxioms.mul_spec, Prim2SF_margin in Vr.
  assert (Hbig : 2 ^ 2300 = 2 ^ 76 * 2 ^ 2224) by (rewrite <- Z.pow_add_r by lia; reflexivity).
  assert (Hpos : 0 < 2 ^ 2224) by (apply Z.pow_pos_nonneg; lia).
  change (2 ^ 76) with 75557863725914323419136 in Hbig.
  destruct (positive_inv f Hf) as [(mf & ef & Ef) | Ef];
    destruct (positive_inv s Hs) as [(m & e & Es) | Es];
    rewrite Ef, Es in *; cbn [rank valid_binary] in *; unfold SF64mul in *.
  - destruct (SFmul_below_one m e 8106479329266893 Vs eq_refl) as (N & _ & L & _).
    pose proof (mantissa_of_ratio m e mf ef Vs Vf Heq) as Hm.
    set (r := SFmul prec emax (S754_finite false m e)
                (S754_finite false 8106479329266893 (-53))) in *.
    pose proof (SFcompare_rank (S754_finite false mf ef) r Vf Vr eq_refl N) as C.
    cbn [rank] in C. unfold SFltb.
    assert (Hlt : scaled mf ef < rank r).
    { apply Z.nle_gt. intros Hle.
      unfold scaled in *.
      assert (Hu : 0 < 2 ^ (e + 1200)).
      { apply Z.pow_pos_nonneg; [lia|]. apply bounded_inv in Vs. lia. }
      set (U := 2 ^ (e + 1200)) in *. set (F := Zpos mf * 2 ^ (ef + 1200)) in *.
      change (2 ^ 53) with 9007199254740992 in L.
      assert (H1 : Zpos m * U * 8106479329266893 < (F + U) * 9007199254740992) by lia.
      assert (H2 : 1000000 * (Zpos m * U * 8106479329266893)
                   < (899999 * (Zpos m * U) + 1000000 * U) * 9007199254740992) by lia.
      assert (H3 : (Zpos m * 9007199254940992) * U < (1000000 * 9007199254740992) * U) by lia.
      apply Z.mul_lt_mono_pos_r in H3; lia. }
    destruct (SFcompare (S754_finite false mf ef) r) as [[| |]|]; [lia | reflexivity | lia | tauto].
  - pose proof (scaled_lt_max _ _ Vf). lia.
  - pose proof (scaled_lt_max _ _ Vs). lia.
  - lia.
Qed.

(** Nine tenths of a positive double, as the script computes it, does not
    exceed any positive double that is at least nine tenths of it
    exactly. *)
Lemma mul_margin_nearest (s g : float) :
  (0 <? s)%float = true -> (0 <? g)%float = true ->
  9 * exact s <= 10 * exact g ->
  rank (Prim2SF (s * 0.9)%float) <= exact g.
Proof.
  unfold exact. intros Hs Hg H9.
  rewrite FloatAxioms.mul_spec, Prim2SF_margin.
  pose proof (Prim2SF_valid s) as Vs. pose proof (Prim2SF_valid g) as Vg.
  assert (Hbig : 2 ^ 2300 = 2 ^ 76 * 2 ^ 2224) by (rewrite <- Z.pow_add_r by lia; reflexivity).
  assert (Hpos : 0 < 2 ^ 2224) by (apply Z.pow_pos_nonneg; lia).
  change (2 ^ 76) with 75557863725914323419136 in Hbig.
  destruct (positive_inv s Hs) as [(m & e & Es) | Es];
    destruct (positive_inv g Hg) as [(mg & eg & Eg) | Eg];
    rewrite Es, Eg in *; cbn [rank valid_binary] in *.
  - destruct (SFmul_below_one m e 8106479329266893 Vs eq_refl) as (_ & _ & _ & N).
    apply N; [discriminate | discriminate | exact Vg | exact H9].
  - destruct (SFmul_below_one m e 8106479329266893 Vs eq_refl) as (_ & U & _ & _).
    pose proof (scaled_lt_inf _ _ Vs). unfold SF64mul. lia.
  - pose proof (scaled_lt_max _ _ Vg). lia.
  - cbn. lia.
Qed.

(** When the smaller of two positive doubles is, exactly, at least nine
    tenths of the larger, neither is strictly below nine tenths of the
    other as the script computes them. *)
Lemma margin_exact_tie (f s : float) :
  (0 <? f)%float = true -> (0 <? s)%float = true ->
  exact f <= exact s -> 9 * exact s <= 10 * exact f ->
  (f <? s * 0.9)%float = false /\ (s <? f * 0.9)%float = false.
Proof.
  intros Hf Hs Hle H9.
  pose proof (mul_margin_nearest s f Hs Hf H9) as Hn.
  destruct (mul_margin_rank f Hf) as [Nf' Rf].
  destruct (mul_margin_rank s Hs) as [Ns' _].
  pose proof (positive_nonneg f Hf) as Nf.
  pose proof (positive_nonneg s Hs) as Ns.
  unfold exact in *. split.
  - destruct (f <? s * 0.9)%float eqn:H; [|reflexivity].
    apply ltb_rank in H; trivial. lia.
  - destruct (s <? f * 0.9)%float eqn:H; [|reflexivity].
    apply ltb_rank in H; trivial. lia.
Qed.

(** *** Further facts: products, sums and signs *)

(** Nine tenths of a positive double, as the script computes it, is
    positive: the product does not underflow to zero. *)
Lemma mul_margin_positive (x : float) :
  (0 <? x)%float = true -> (0 <? x * 0.9)%float = true.
Proof.
  intros H. rewrite FloatAxioms.ltb_spec, FloatAxioms.mul_spec, Prim2SF_zero, Prim2SF_margin.
  pose proof (Prim2SF_valid x) as V.
  destruct (positive_inv x H) as [(m & e & E) | E]; rewrite E in *; [|reflexivity].
  cbn [valid_binary] in V. unfold SF64mul.
  destruct (Pos.eq_dec m 1) as [-> | Hm].
  - assert (He : e = -1074).
    { apply bounded_inv in V. cbn [digits2_pos] in V. lia. }
    subst e. vm_compute. reflexivity.
  - destruct (SFmul_below_one m e 8106479329266893 V eq_refl) as (N & _ & L & _).
    set (r := SFmul prec emax (S754_finite false m e)
                (S754_finite false 8106479329266893 (-53))) in *.
    assert (Hr : 0 < rank r).
    { unfold scaled in L.
      assert (Hu : 0 < 2 ^ (e + 1200)).
      { apply Z.pow_pos_nonneg; [lia|]. apply bounded_inv in V. lia. }
      set (U := 2 ^ (e + 1200)) in *.
      change (2 ^ 53) with 9007199254740992 in L.
      assert (H2 : 2 <= Zpos m) by lia.
      assert (H3 : 2 * U <= Zpos m * U) by (apply Z.mul_le_mono_nonneg_r; lia).
      clear - L H3 Hu. lia. }
    destruct r as [s | [|] | | [|] mr er]; cbn [rank nonneg] in *;
      try discriminate; try lia; reflexivity.
Qed.

(** A double that is not below zero is zero or positive. *)
Lemma leb_zero_cases (x : float) :
  (0 <=? x)%float = true -> (x =? 0)%float = true \/ (0 <? x)%float = true.
Proof.
  rewrite FloatAxioms.leb_spec, FloatAxioms.eqb_spec, FloatAxioms.ltb_spec, Prim2SF_zero.
  destruct (Prim2SF x) as [s | [|] | | [|] m e]; cbn; auto; discriminate.
Qed.

Lemma shr_1_nonneg (mrs : shr_record) : 0 <= shr_m mrs -> 0 <= shr_m (shr_1 mrs).
Proof.
  destruct mrs as [m r s]. destruct m as [| [p | p |] | p]; cbn; lia.
Qed.

Lemma iter_shr_1_nonneg (p : positive) : forall mrs,
  0 <= shr_m mrs -> 0 <= shr_m (SpecFloat.iter_pos shr_1 p mrs).
Proof.
  induction p as [p IH | p IH |]; intros mrs H; cbn [SpecFloat.iter_pos].
  - apply IH, IH, shr_1_nonneg, H.
  - apply IH, IH, H.
  - apply shr_1_nonneg, H.
Qed.

Lemma shr_nonneg (mrs : shr_record) (e n : Z) :
  0 <= shr_m mrs -> 0 <= shr_m (fst (shr mrs e n)).
Proof.
  intros H. destruct n as [| p | p]; cbn [shr fst]; auto using iter_shr_1_nonneg.
Qed.

Lemma shr_fexp_nonneg (m e : Z) (l : location) :
  0 <= m -> 0 <= shr_m (fst (shr_fexp prec emax m e l)).
Proof.
  intros H. unfold shr_fexp. apply shr_nonneg.
  destruct l as [| [| |]]; exact H.
Qed.

Lemma round_nearest_even_nonneg (m : Z) (l : location) :
  0 <= m -> 0 <= round_nearest_even m l.
Proof.
  intros H. destruct l as [| [| |]]; cbn [round_nearest_even];
    try destruct (Z.even m); lia.
Qed.

(** Rounding a non-negative mantissa with a plus sign gives a value with a
    plus sign. *)
Lemma binary_round_aux_plus (m e : Z) (l : location) :
  0 <= m -> isPlus (binary_round_aux prec emax false m e l) = true.
Proof.
  intros H. unfold binary_round_aux.
  pose proof (shr_fexp_nonneg m e l H) as H1.
  destruct (shr_fexp prec emax m e l) as [mrs1 e1]. cbn [fst] in H1.
  pose proof (shr_fexp_nonneg
                (round_nearest_even (shr_m mrs1) (loc_of_shr_record mrs1)) e1 loc_Exact
                (round_nearest_even_nonneg _ _ H1)) as H2.
  destruct (shr_fexp prec emax _ e1 loc_Exact) as [mrs2 e2]. cbn [fst] in H2.
  destruct (shr_m mrs2) as [| p | p]; [reflexivity | | lia].
  destruct (e2 <=? emax - prec); reflexivity.
Qed.

Lemma binary_round_plus (m : positive) (e : Z) :
  isPlus (binary_round prec emax false m e) = true.
Proof.
  unfold binary_round. destruct (shl_align m e _) as [mz ez].
  apply binary_round_aux_plus. lia.
Qed.

Lemma SFmul_plus (x : spec_float) (my : positive) (ey : Z) :
  isPlus x = true -> isPlus (SF64mul x (S754_finite false my ey)) = true.
Proof.
  destruct x as [[|] | [|] | | [|] m e]; try discriminate; intros _; try reflexivity.
  unfold SF64mul. cbn [SFmul xorb]. apply binary_round_aux_plus. lia.
Qed.

Lemma SFdiv_plus (x : spec_float) (my : positive) (ey : Z) :
  isPlus x = true -> isPlus (SF64div x (S754_finite false my ey)) = true.
Proof.
  destruct x as [[|] | [|] | | [|] m e]; try discriminate; intros _; try reflexivity.
  unfold SF64div. cbn [SFdiv xorb]. unfold SFdiv_core_binary.
  set (m' := match _ with Zpos _ => Z.shiftl (Zpos m) _ | Z0 => Zpos m | Zneg _ => 0 end).
  assert (Hm' : 0 <= m').
  { subst m'. destruct (_ - _) as [| p | p]; try lia. apply Z.shiftl_nonneg. lia. }
  pose proof (Z.div_pos m' (Zpos my) Hm' eq_refl) as Hq.
  unfold Z.div in Hq. destruct (Z.div_eucl m' (Zpos my)) as [q r]. cbn [fst] in Hq.
  apply binary_round_aux_plus. exact Hq.
Qed.

Lemma SFadd_plus (x y : spec_float) :
  isPlus x = true -> isPlus y = true -> isPlus (SF64add x y) = true.
Proof.
  destruct x as [[|] | [|] | | [|] mx ex]; try discriminate;
    destruct y as [[|] | [|] | | [|] my ey]; try discriminate; intros _ _; try reflexivity.
  unfold SF64add. cbn [SFadd cond_Zopp]. unfold binary_normalize.
  destruct (shl_align mx ex (Z.min ex ey)) as [ax ae], (shl_align my ey (Z.min ex ey)) as [ay be].
  cbn [fst]. change (Zpos ax + Zpos ay) with (Zpos (ax + ay)).
  apply binary_round_plus.
Qed.

Lemma isPlus_leb (x : float) : isPlus (Prim2SF x) = true -> (0 <=? x)%float = true.
Proof.
  rewrite FloatAxioms.leb_spec, Prim2SF_zero.
  destruct (Prim2SF x) as [[|] | [|] | | [|] m e]; try discriminate; reflexivity.
Qed.

(** A double with a plus sign is truthy or is [+0] itself. *)
Lemma isPlus_orDefault (x : number) : isPlus (Prim2SF x) = true -> orDefault (Some x) 0%float = x.
Proof.
  intros P. cbn [orDefault]. destruct (toBoolean x) eqn:T; [reflexivity|].
  unfold toBoolean, number_ToBoolean, is_nan, is_zero in T.
  rewrite !FloatAxioms.eqb_spec in T. change (Prim2SF PrimFloat.zero) with (S754_zero false) in T.
  apply Prim2SF_inj. rewrite Prim2SF_zero.
  destruct (Prim2SF x) as [[|] | [|] | | [|] m e]; try discriminate; try reflexivity.
  rewrite SFeqb_refl_finite in T. cbn in T. discriminate.
Qed.

(** Shifting a positive mantissa into its format keeps it positive, at an
    exponent that is not below the smallest one. *)
Lemma shr_fexp_pos (m : positive) (e : Z) :
  -1074 <= e ->
  1 <= shr_m (fst (shr_fexp prec emax (Zpos m) e loc_Exact)) /\
  -1074 <= snd (shr_fexp prec emax (Zpos m) e loc_Exact).
Proof.
  intros He. unfold shr_fexp. cbn [shr_record_of_loc Zdigits2].
  set (n := fexp prec emax (Zpos (digits2_pos m) + e) - e).
  destruct (shr_spec (Zpos m) e n) as (mrs & E & rem & HM & Hrem & Hpos & _); [lia|].
  rewrite E. cbn [fst snd].
  assert (Hk : Z.max 0 n = Z.max 0 (Zpos (digits2_pos m) - 53)).
  { subst n. unfold fexp, SpecFloat.emin, prec, emax. lia. }
  rewrite Hk in *. split; [|lia].
  pose proof (digits2_bounds m) as [Hlo _].
  destruct (Z_le_gt_dec (Zpos (digits2_pos m)) 53) as [Hd | Hd].
  - replace (Z.max 0 (Zpos (digits2_pos m) - 53)) with 0 in * by lia.
    change (2 ^ 0) with 1 in *. lia.
  - replace (Z.max 0 (Zpos (digits2_pos m) - 53)) with (Zpos (digits2_pos m) - 53) in * by lia.
    set (P := 2 ^ (Zpos (digits2_pos m) - 53)) in *.
    assert (HP : 0 < P) by (apply Z.pow_pos_nonneg; lia).
    assert (Hsplit : 2 ^ (Zpos (digits2_pos m) - 1) = 2 ^ 52 * P).
    { subst P. rewrite <- Z.pow_add_r by lia. f_equal. lia. }
    rewrite Hsplit in Hlo. change (2 ^ 52) with 4503599627370496 in Hlo.
    apply Z.lt_pred_le. apply Z.mul_lt_mono_pos_r with (p := P); [exact HP|].
    clear - Hlo HM Hrem HP. lia.
Qed.

Lemma binary_round_aux_nonzero (s : bool) (m : positive) (e : Z) :
  -1074 <= e ->
  match binary_round_aux prec emax s (Zpos m) e loc_Exact with
  | S754_zero _ => False
  | _ => True
  end.
Proof.
  intros He. unfold binary_round_aux.
  pose proof (shr_fexp_pos m e He) as [H1 He1].
  destruct (shr_fexp prec emax (Zpos m) e loc_Exact) as [mrs1 e1]. cbn [fst snd] in *.
  set (m1 := round_nearest_even (shr_m mrs1) (loc_of_shr_record mrs1)).
  assert (Hm1 : 1 <= m1).
  { subst m1. destruct (round_nearest_even_cases mrs1) as [-> | [-> _]]; lia. }
  destruct m1 as [| p1 | p1]; try lia.
  pose proof (shr_fexp_pos p1 e1 He1) as [H2 _].
  destruct (shr_fexp prec emax (Zpos p1) e1 loc_Exact) as [mrs2 e2]. cbn [fst] in *.
  destruct (shr_m mrs2) as [| p2 | p2]; try lia.
  destruct (e2 <=? emax - prec); exact I.
Qed.

Lemma binary_round_nonzero (s : bool) (m : positive) (e : Z) :
  -1074 <= e ->
  match binary_round prec emax s m e with
  | S754_zero _ => False
  | _ => True
  end.
Proof.
  intros He. unfold binary_round, shl_align.
  set (e' := fexp prec emax (Zpos (digits2_pos m) + e)).
  assert (He' : -1074 <= e') by (subst e'; unfold fexp, SpecFloat.emin, prec, emax; lia).
  destruct (e' - e) as [| d | d]; apply binary_round_aux_nonzero; assumption.
Qed.

(** A sum is [-0] only when its first operand is. *)
Lemma SFadd_notNegZero (x y : spec_float) :
  valid_binary x = true -> valid_binary y = true ->
  notNegZero x = true -> notNegZero (SF64add x y) = true.
Proof.
  intros Vx Vy Nx.
  destruct x as [[|] | [|] | | sx mx ex]; try discriminate;
    destruct y as [[|] | [|] | | sy my ey]; try reflexivity.
  unfold SF64add. cbn [SFadd]. unfold binary_normalize.
  cbn [valid_binary] in Vx, Vy. apply bounded_inv in Vx. apply bounded_inv in Vy.
  assert (Hmin : -1074 <= Z.min ex ey) by lia.
  destruct (cond_Zopp sx _ + cond_Zopp sy _) as [| p | p]; [reflexivity | |].
  - pose proof (binary_round_nonzero false p (Z.min ex ey) Hmin) as H.
    destruct (binary_round prec emax false p (Z.min ex ey)) as [[|] | | |]; tauto.
  - pose proof (binary_round_nonzero true p (Z.min ex ey) Hmin) as H.
    destruct (binary_round prec emax true p (Z.min ex ey)) as [[|] | | |]; tauto.
Qed.

Lemma add_notNegZero (a x : float) :
  notNegZero (Prim2SF a) = true -> notNegZero (Prim2SF (a + x)%float) = true.
Proof.
  intros H. rewrite FloatAxioms.add_spec.
  apply SFadd_notNegZero; auto using Prim2SF_valid.
Qed.

(** Adding [0] changes nothing, except that it turns [-0] into [+0]. *)
Lemma add_zero_r (a : float) : notNegZero (Prim2SF a) = true -> (a + 0)%float = a.
Proof.
  intros H. apply Prim2SF_inj. rewrite FloatAxioms.add_spec, Prim2SF_zero.
  destruct (Prim2SF a) as [[|] | [|] | | s m e]; try discriminate; reflexivity.
Qed.

Lemma isPlus_notNegZero (x : spec_float) : isPlus x = true -> notNegZero x = true.
Proof. destruct x as [[|] | [|] | | [|] m e]; try discriminate; reflexivity. Qed.

Lemma nonzero_toBoolean (x : number) :
  (x <? 0)%float || (0 <? x)%float = true -> toBoolean x = true.
Proof.
  intros H. apply orb_true_iff in H. destruct H as [H | H];
    [|apply positive_toBoolean; exact H].
  unfold toBoolean, number_ToBoolean, is_nan, is_zero.
  rewrite !FloatAxioms.eqb_spec. change (Prim2SF PrimFloat.zero) with (S754_zero false).
  rewrite FloatAxioms.ltb_spec, Prim2SF_zero in H.
  destruct (Prim2SF x) as [s | [|] | | [|] m e]; try discriminate; try reflexivity.
  rewrite SFeqb_refl_finite. reflexivity.
Qed.

(** A truthy number or [+0] that is not below zero has a plus sign. *)
Lemma resolved_isPlus (x : number) :
  toBoolean x = true \/ x = 0%float -> (0 <=? x)%float = true -> isPlus (Prim2SF x) = true.
Proof.
  intros [T | ->] L; [|reflexivity].
  unfold toBoolean, number_ToBoolean, is_nan, is_zero in T.
  rewrite !FloatAxioms.eqb_spec in T. change (Prim2SF PrimFloat.zero) with (S754_zero false) in T.
  rewrite FloatAxioms.leb_spec, Prim2SF_zero in L.
  destruct (Prim2SF x) as [[|] | [|] | | [|] m e]; try discriminate; reflexivity.
Qed.

Lemma positive_not_negative (x : float) : (0 <? x)%float = true -> (x <? 0)%float = false.
Proof.
  intros H. rewrite FloatAxioms.ltb_spec, Prim2SF_zero.
  destruct (positive_inv x H) as [(m & e & E) | E]; rewrite E; reflexivity.
Qed.

(** A positive double is not strictly below nine tenths of itself. *)
Lemma margin_irreflexive (x : float) : (0 <? x)%float = true -> (x <? x * 0.9)%float = false.
Proof.
  intros H. destruct (mul_margin_rank x H) as [N R].
  pose proof (positive_nonneg x H) as Nx.
  destruct (x <? x * 0.9)%float eqn:E; [|reflexivity].
  apply ltb_rank in E; trivial. lia.
Qed.

Lemma isPlus_not_nan (x : float) : isPlus (Prim2SF x) = true -> is_nan x = false.
Proof.
  unfold is_nan. rewrite FloatAxioms.eqb_spec.
  destruct (Prim2SF x) as [[|] | [|] | | [|] m e]; try discriminate; intros _;
    try reflexivity.
  rewrite SFeqb_refl_finite. reflexivity.
Qed.

Lemma div_plus (x c : float) (mc : positive) (ec : Z) :
  Prim2SF c = S754_finite false mc ec ->
  isPlus (Prim2SF x) = true -> isPlus (Prim2SF (x / c)%float) = true.
Proof. intros E P. rewrite FloatAxioms.div_spec, E. apply SFdiv_plus, P. Qed.

Lemma mul_plus (x c : float) (mc : positive) (ec : Z) :
  Prim2SF c = S754_finite false mc ec ->
  isPlus (Prim2SF x) = true -> isPlus (Prim2SF (x * c)%float) = true.
Proof. intros E P. rewrite FloatAxioms.mul_spec, E. apply SFmul_plus, P. Qed.

Lemma add_plus (x y : float) :
  isPlus (Prim2SF x) = true -> isPlus (Prim2SF y) = true ->
  isPlus (Prim2SF (x + y)%float) = true.
Proof. intros Px Py. rewrite FloatAxioms.add_spec. apply SFadd_plus; assumption. Qed.

End Binary64.

(** ** The normaliser *)

Section DualLookup.
Context {A : Type} `{ToBoolean A}.

Lemma orDefault_camel (x : A) (d : A) :
  orDefault (orElse (Some x) None) d = if toBoolean x then x else d.
Proof.
  unfold orElse. destruct (toBoolean x) eqn:E; cbn; [rewrite E|]; reflexivity.
Qed.

Lemma orDefault_snake (x : A) (d : A) :
  orDefault (orElse None (Some x)) d = if toBoolean x then x else d.
Proof. reflexivity. Qed.

Lemma orDefault_fallback (x : A) (b : option A) (d : A) :
  toBoolean x = false -> orDefault (orElse (Some x) b) d = orDefault b d.
Proof. intros E. unfold orElse. rewrite E. reflexivity. Qed.

Lemma orDefault_truthy (x d : A) :
  toBoolean x = true -> orDefault (Some x) d = x.
Proof. intros E. cbn. rewrite E. reflexivity. Qed.

End DualLookup.

(** C1: the cost of a normalised record is
    [tokensIn / 1e6 * 15.0 + tokensOut / 1e6 * 75.0] over its own resolved
    token counts, and replacing the cost carried by the raw record by any
    other value changes nothing in the normalised record. *)
Theorem C1_cost_recomputed (r : Raw.TestResult) :
  Normalised.cost (normaliseResult r) =
    Normalised.tokensIn (normaliseResult r) / 1000000 * 15.0 +
    Normalised.tokensOut (normaliseResult r) / 1000000 * 75.0
  /\ forall c : number, normaliseResult (Raw.withCost r c) = normaliseResult r.
Proof.
  split; [reflexivity|]. intros c. destruct r; reflexivity.
Qed.

(** C6: a record whose name, token counts and duration are populated
    under the snake_case names only is normalised to the same record as
    the one carrying the same values under the camelCase names only. *)
Theorem C6_convention_independence (rest : Raw.TestResult) (name : string)
  (tin tout dur : number) :
  normaliseResult (snakeOnly rest name tin tout dur) =
  normaliseResult (camelOnly rest name tin tout dur).
Proof.
  unfold normaliseResult, snakeOnly, camelOnly.
  cbn [Raw.testName Raw.test_name Raw.tokensIn Raw.tokens_in Raw.tokensOut
       Raw.tokens_out Raw.durationMs Raw.duration_ms Raw.framework Raw.model
       Raw.prompt Raw.response Raw.success Raw.error Raw.cost].
  rewrite !orDefault_camel, !orDefault_snake. reflexivity.
Qed.

(** C9: a camelCase value that is present but falsy is passed over.  With
    [tokensIn] zero and [tokens_in] a positive [n] the normalised
    [tokensIn] is [n], and likewise for [tokensOut] and [durationMs]; with
    [testName] the empty string the normalised name is [test_name], or
    ["Unknown"] when [test_name] is empty or missing. *)
Theorem C9_falsy_camel_value_falls_back (r : Raw.TestResult) :
  (forall z n, Raw.tokensIn r = Some z -> (z =? 0) = true ->
               Raw.tokens_in r = Some n -> (0 <? n) = true ->
               Normalised.tokensIn (normaliseResult r) = n) /\
  (forall z n, Raw.tokensOut r = Some z -> (z =? 0) = true ->
               Raw.tokens_out r = Some n -> (0 <? n) = true ->
               Normalised.tokensOut (normaliseResult r) = n) /\
  (forall z n, Raw.durationMs r = Some z -> (z =? 0) = true ->
               Raw.duration_ms r = Some n -> (0 <? n) = true ->
               Normalised.durationMs (normaliseResult r) = n) /\
  (Raw.testName r = Some ""%string ->
   Normalised.testName (normaliseResult r) =
     match Raw.test_name r with
     | Some (String a s) => String a s
     | Some EmptyString | None => "Unknown"%string
     end).
Proof.
  assert (number_case : forall a b z n, a = Some z -> (z =? 0) = true ->
            b = Some n -> (0 <? n) = true -> orDefault (orElse a b) 0 = n).
  { intros a b z n -> Hz -> Hn.
    rewrite orDefault_fallback by (apply Binary64.zero_toBoolean; exact Hz).
    apply orDefault_truthy, Binary64.positive_toBoolean; exact Hn. }
  unfold normaliseResult; cbn [Normalised.tokensIn Normalised.tokensOut
    Normalised.durationMs Normalised.testName].
  repeat split; eauto.
  intros ->. rewrite orDefault_fallback by reflexivity.
  destruct (Raw.test_name r) as [[|a s]|]; reflexivity.
Qed.

Lemma C9_witness :
  Normalised.tokensIn (normaliseResult falsyCamelRecord) = 50 /\
  Normalised.tokensOut (normaliseResult falsyCamelRecord) = 457 /\
  Normalised.durationMs (normaliseResult falsyCamelRecord) = 8160 /\
  Normalised.testName (normaliseResult falsyCamelRecord) = "Bug Detection"%string.
Proof.
  destruct (C9_falsy_camel_value_falls_back falsyCamelRecord) as (Hin & Hout & Hdur & Hname).
  split; [apply (Hin 0 50); reflexivity|].
  split; [apply (Hout 0 457); reflexivity|].
  split; [apply (Hdur 0 8160); reflexivity|].
  apply Hname; reflexivity.
Defined.

(** ** The script as a whole *)

Lemma compareResults_Saved (w : World) (file : string) (report : Report.t) :
  compareResults w = Saved file report ->
  file = REPORT /\
  report = buildReport (loaded w PI_RESULTS) (loaded w CLAUDE_RESULTS) (now w).
Proof.
  unfold compareResults, loadResults, loaded.
  destruct (files w PI_RESULTS) as [[d1|]|], (files w CLAUDE_RESULTS) as [[d2|]|];
    cbn; intros E; inversion E; split; reflexivity.
Qed.

Lemma compareResults_saves (w : World) :
  wellFormed w ->
  files w PI_RESULTS <> None \/ files w CLAUDE_RESULTS <> None ->
  compareResults w =
    Saved REPORT (buildReport (loaded w PI_RESULTS) (loaded w CLAUDE_RESULTS) (now w)).
Proof.
  unfold wellFormed, compareResults, loadResults, loaded.
  destruct (files w PI_RESULTS) as [[d1|]|], (files w CLAUDE_RESULTS) as [[d2|]|];
    cbn; intros [W1 W2] Hsome; try reflexivity; try congruence.
  destruct Hsome; congruence.
Qed.

Lemma saved_comparison (w : World) (file : string) (report : Report.t) (c : Comparison.t) :
  compareResults w = Saved file report ->
  In c (Report.comparisons report) ->
  exists testName,
    In testName (collectTestNames (loaded w PI_RESULTS) (loaded w CLAUDE_RESULTS)) /\
    c = compareTest (loaded w PI_RESULTS) (loaded w CLAUDE_RESULTS) testName.
Proof.
  intros E Hin. apply compareResults_Saved in E. destruct E as [_ ->].
  cbn [buildReport Report.comparisons] in Hin. unfold buildComparisons in Hin.
  apply in_map_iff in Hin. destruct Hin as (name & <- & Hname). eauto.
Qed.

(** ** Verdicts *)

Lemma speedWinner_positive (a b : Metrics.t) :
  (0 <? Metrics.duration a) = true -> (0 <? Metrics.duration b) = true ->
  (speedWinner a b = speed_pi <-> (Metrics.duration a <? Metrics.duration b * 0.9) = true) /\
  (speedWinner a b = speed_claude <-> (Metrics.duration b <? Metrics.duration a * 0.9) = true) /\
  (speedWinner a b = speed_tie <->
     (Metrics.duration a <? Metrics.duration b * 0.9) = false /\
     (Metrics.duration b <? Metrics.duration a * 0.9) = false).
Proof.
  intros Ha Hb. unfold speedWinner, andCond.
  rewrite (Binary64.positive_toBoolean _ Ha), (Binary64.positive_toBoolean _ Hb).
  cbn [andb].
  destruct (Metrics.duration a <? Metrics.duration b * 0.9) eqn:E1.
  - rewrite (Binary64.margin_exclusive _ _ Ha Hb E1).
    repeat split; intros; try discriminate; try reflexivity.
    destruct H; discriminate.
  - destruct (Metrics.duration b <? Metrics.duration a * 0.9) eqn:E2;
      repeat split; intros; try discriminate; try reflexivity.
    destruct H; discriminate.
Qed.

Lemma speedWinner_zero (a b : Metrics.t) :
  (Metrics.duration a =? 0) = true \/ (Metrics.duration b =? 0) = true ->
  speedWinner a b = speed_tie.
Proof.
  unfold speedWinner, andCond. intros [Z | Z]; rewrite (Binary64.zero_toBoolean _ Z).
  - reflexivity.
  - rewrite andb_false_r. reflexivity.
Qed.

Lemma costWinner_positive (a b : Metrics.t) :
  (0 <? Metrics.cost a) = true -> (0 <? Metrics.cost b) = true ->
  (costWinner a b = cost_pi <-> (Metrics.cost a <? Metrics.cost b * 0.9) = true) /\
  (costWinner a b = cost_claude <-> (Metrics.cost b <? Metrics.cost a * 0.9) = true) /\
  (costWinner a b = cost_tie <->
     (Metrics.cost a <? Metrics.cost b * 0.9) = false /\
     (Metrics.cost b <? Metrics.cost a * 0.9) = false).
Proof.
  intros Ha Hb. unfold costWinner. rewrite Ha, Hb. cbn [andb].
  destruct (Metrics.cost a <? Metrics.cost b * 0.9) eqn:E1.
  - rewrite (Binary64.margin_exclusive _ _ Ha Hb E1).
    repeat split; intros; try discriminate; try reflexivity.
    destruct H; discriminate.
  - destruct (Metrics.cost b <? Metrics.cost a * 0.9) eqn:E2;
      repeat split; intros; try discriminate; try reflexivity.
    destruct H; discriminate.
Qed.

Lemma costWinner_unknown (a b : Metrics.t) :
  costWinner a b = cost_unknown <->
  (0 <? Metrics.cost a) && (0 <? Metrics.cost b) = false.
Proof.
  unfold costWinner.
  destruct ((0 <? Metrics.cost a) && (0 <? Metrics.cost b)).
  - destruct (Metrics.cost a <? Metrics.cost b * 0.9);
      [|destruct (Metrics.cost b <? Metrics.cost a * 0.9)]; split; discriminate.
  - split; reflexivity.
Qed.

Lemma entryOf_In (w : World) (testName : string) :
  In testName (collectTestNames (loaded w PI_RESULTS) (loaded w CLAUDE_RESULTS)) ->
  In (entryOf w testName) (Report.comparisons (reportOf w)).
Proof. intros H. apply in_map. exact H. Qed.

Ltac task_listed := vm_compute; repeat (first [left; reflexivity | right]).

Lemma bugDetectionWorld_saved :
  compareResults bugDetectionWorld = Saved REPORT (reportOf bugDetectionWorld).
Proof. vm_compute. reflexivity. Qed.

Lemma marginWorld_saved : compareResults marginWorld = Saved REPORT (reportOf marginWorld).
Proof. vm_compute. reflexivity. Qed.

Lemma partialWorld_saved : compareResults partialWorld = Saved REPORT (reportOf partialWorld).
Proof. vm_compute. reflexivity. Qed.

Lemma tallyWorld_saved : compareResults tallyWorld = Saved REPORT (reportOf tallyWorld).
Proof. vm_compute. reflexivity. Qed.

(** C2: in every entry of a saved report, with both durations strictly
    positive [pi] is the speed winner exactly when its duration is strictly
    below [0.9] times the other's, likewise [claude], and the verdict is a
    tie exactly when neither is; with either duration zero the verdict is a
    tie.  In particular two positive durations of which the smaller is,
    exactly, at least nine tenths of the larger tie, and when one positive
    duration is exactly [0.899999] times the other, that is, 10.0001% below
    it, the faster participant wins.  ([Binary64.exact] is the value of a
    double as an integer multiple of [2^-1200].) *)
Theorem C2_speed_verdict (w : World) (file : string) (report : Report.t) (c : Comparison.t) :
  compareResults w = Saved file report ->
  In c (Report.comparisons report) ->
  let p := Metrics.duration (Comparison.piSdk c) in
  let q := Metrics.duration (Comparison.claudeSdk c) in
  let v := Winner.speed (Comparison.winner c) in
  ((0 <? p) = true -> (0 <? q) = true ->
     (v = speed_pi <-> (p <? q * 0.9) = true) /\
     (v = speed_claude <-> (q <? p * 0.9) = true) /\
     (v = speed_tie <-> (p <? q * 0.9) = false /\ (q <? p * 0.9) = false)) /\
  ((p =? 0) = true \/ (q =? 0) = true -> v = speed_tie) /\
  ((0 <? p) = true -> (0 <? q) = true ->
     (Binary64.exact p <= Binary64.exact q /\ 9 * Binary64.exact q <= 10 * Binary64.exact p \/
      Binary64.exact q <= Binary64.exact p /\ 9 * Binary64.exact p <= 10 * Binary64.exact q)%Z ->
     v = speed_tie) /\
  ((0 <? p) = true -> (0 <? q) = true ->
     (1000000 * Binary64.exact p = 899999 * Binary64.exact q)%Z -> v = speed_pi) /\
  ((0 <? p) = true -> (0 <? q) = true ->
     (1000000 * Binary64.exact q = 899999 * Binary64.exact p)%Z -> v = speed_claude).
Proof.
  intros E Hin. destruct (saved_comparison w file report c E Hin) as (name & _ & ->).
  cbv zeta.
  cbn [compareTest Comparison.piSdk Comparison.claudeSdk Comparison.winner Winner.speed].
  set (a := metricsOf (findResult (loaded w PI_RESULTS) name)).
  set (b := metricsOf (findResult (loaded w CLAUDE_RESULTS) name)).
  split; [apply speedWinner_positive|].
  split; [apply speedWinner_zero|].
  split; [|split].
  - intros Hp Hq Hnear.
    apply (speedWinner_positive a b Hp Hq).
    destruct Hnear as [[Hle H9] | [Hle H9]].
    + apply Binary64.margin_exact_tie; assumption.
    + apply and_comm. apply Binary64.margin_exact_tie; assumption.
  - intros Hp Hq Hratio.
    apply (speedWinner_positive a b Hp Hq).
    apply Binary64.margin_exact_win; assumption.
  - intros Hp Hq Hratio.
    apply (speedWinner_positive a b Hp Hq).
    apply Binary64.margin_exact_win; assumption.
Qed.

Lemma C2_witness :
  Winner.speed (Comparison.winner (entryOf marginWorld "faster-pi")) = speed_pi /\
  Winner.speed (Comparison.winner (entryOf marginWorld "faster-claude")) = speed_claude /\
  Winner.speed (Comparison.winner (entryOf marginWorld "close")) = speed_tie /\
  Winner.speed (Comparison.winner (entryOf marginWorld "no-data")) = speed_tie /\
  (Winner.speed (Comparison.winner bugDetectionEntry) = speed_pi <->
   (7340 <? 8160 * 0.9) = true).
Proof.
  pose proof (fun name H =>
    C2_speed_verdict marginWorld REPORT (reportOf marginWorld) (entryOf marginWorld name)
      marginWorld_saved (entryOf_In marginWorld name H)) as M.
  split; [|split; [|split; [|split]]].
  - destruct (M "faster-pi"%string) as (_ & _ & _ & H & _); [task_listed|].
    apply H; vm_compute; reflexivity.
  - destruct (M "faster-claude"%string) as (_ & _ & _ & _ & H); [task_listed|].
    apply H; vm_compute; reflexivity.
  - destruct (M "close"%string) as (_ & _ & H & _); [task_listed|].
    apply H; [reflexivity | reflexivity |]. left. vm_compute. split; discriminate.
  - destruct (M "no-data"%string) as (_ & H & _); [task_listed|].
    apply H. left. reflexivity.
  - assert (Hin : In "Bug Detection"%string
                     (collectTestNames (loaded bugDetectionWorld PI_RESULTS)
                                       (loaded bugDetectionWorld CLAUDE_RESULTS)))
      by task_listed.
    destruct (C2_speed_verdict bugDetectionWorld REPORT (reportOf bugDetectionWorld)
                bugDetectionEntry bugDetectionWorld_saved
                (entryOf_In bugDetectionWorld _ Hin)) as (H & _).
    exact (proj1 (H eq_refl eq_refl)).
Defined.

(** C3: in every entry of a saved report the cost verdict is [unknown]
    unless both recomputed costs are strictly positive; with both strictly
    positive a participant wins exactly when its cost is strictly below
    [0.9] times the other's and the verdict is a tie otherwise.  With both
    costs zero the verdict is [unknown], not [tie]. *)
Theorem C3_cost_verdict (w : World) (file : string) (report : Report.t) (c : Comparison.t) :
  compareResults w = Saved file report ->
  In c (Report.comparisons report) ->
  let p := Metrics.cost (Comparison.piSdk c) in
  let q := Metrics.cost (Comparison.claudeSdk c) in
  let v := Winner.cost (Comparison.winner c) in
  (v = cost_unknown <-> (0 <? p) && (0 <? q) = false) /\
  ((0 <? p) = true -> (0 <? q) = true ->
     (v = cost_pi <-> (p <? q * 0.9) = true) /\
     (v = cost_claude <-> (q <? p * 0.9) = true) /\
     (v = cost_tie <-> (p <? q * 0.9) = false /\ (q <? p * 0.9) = false)) /\
  ((p =? 0) = true -> (q =? 0) = true -> v = cost_unknown /\ v <> cost_tie).
Proof.
  intros E Hin. destruct (saved_comparison w file report c E Hin) as (name & _ & ->).
  cbv zeta.
  cbn [compareTest Comparison.piSdk Comparison.claudeSdk Comparison.winner Winner.cost].
  set (a := metricsOf (findResult (loaded w PI_RESULTS) name)).
  set (b := metricsOf (findResult (loaded w CLAUDE_RESULTS) name)).
  split; [apply costWinner_unknown|].
  split; [apply costWinner_positive|].
  intros Hp Hq.
  assert (U : costWinner a b = cost_unknown).
  { apply costWinner_unknown. rewrite (Binary64.zero_not_positive _ Hp). reflexivity. }
  rewrite U. split; [reflexivity | discriminate].
Qed.

Lemma C3_witness :
  Winner.cost (Comparison.winner (entryOf marginWorld "no-data")) = cost_unknown /\
  Winner.cost (Comparison.winner (entryOf marginWorld "pi-only")) = cost_unknown /\
  Winner.cost (Comparison.winner (entryOf marginWorld "faster-claude")) = cost_pi /\
  Winner.cost (Comparison.winner (entryOf marginWorld "close")) = cost_tie.
Proof.
  pose proof (fun name H =>
    C3_cost_verdict marginWorld REPORT (reportOf marginWorld) (entryOf marginWorld name)
      marginWorld_saved (entryOf_In marginWorld name H)) as M.
  split; [|split; [|split]].
  - destruct (M "no-data"%string) as (_ & _ & H); [task_listed|].
    apply H; reflexivity.
  - destruct (M "pi-only"%string) as (H & _); [task_listed|].
    apply H; reflexivity.
  - destruct (M "faster-claude"%string) as (_ & H & _); [task_listed|].
    apply (H eq_refl eq_refl); reflexivity.
  - destruct (M "close"%string) as (_ & H & _); [task_listed|].
    apply (H eq_refl eq_refl); split; reflexivity.
Defined.

(** ** The set of task identifiers *)

Local Open Scope list_scope.

Lemma Set_has_In (s : StringSet) (x : string) : Set_has s x = true <-> In x s.
Proof.
  unfold Set_has. rewrite existsb_exists. split.
  - intros (y & Hy & E). apply String.eqb_eq in E. subst y. exact Hy.
  - intros Hx. exists x. split; [exact Hx | apply String.eqb_refl].
Qed.

Lemma Set_has_app (s : StringSet) (x y : string) :
  Set_has (s ++ [x]) y = Set_has s y || String.eqb y x.
Proof. unfold Set_has. rewrite existsb_app. cbn. rewrite orb_false_r. reflexivity. Qed.

Lemma filter_remove_seen (acc : StringSet) (x : string) (l : list string) :
  Set_has acc x = true ->
  filter (fun y => negb (Set_has acc y)) (remove string_dec x l) =
  filter (fun y => negb (Set_has acc y)) l.
Proof.
  intros Hx. induction l as [| y l IH]; [reflexivity|].
  cbn [remove filter]. destruct (string_dec x y) as [<- | Hne].
  - rewrite Hx. cbn. exact IH.
  - cbn [filter]. rewrite IH. reflexivity.
Qed.

Lemma filter_remove_new (acc : StringSet) (x : string) (l : list string) :
  filter (fun y => negb (Set_has (acc ++ [x]) y)) l =
  filter (fun y => negb (Set_has acc y)) (remove string_dec x l).
Proof.
  induction l as [| y l IH]; [reflexivity|].
  cbn [remove filter]. rewrite Set_has_app.
  destruct (string_dec x y) as [<- | Hne].
  - rewrite String.eqb_refl, orb_true_r. cbn. exact IH.
  - assert (E : String.eqb y x = false) by (apply String.eqb_neq; congruence).
    rewrite E, orb_false_r. cbn [filter]. rewrite IH. reflexivity.
Qed.

(** Adding the elements of [l] one by one appends to the set, in order,
    the first occurrence of each element not already in it. *)
Lemma fold_Set_add (l : list string) : forall acc : StringSet,
  fold_left Set_add l acc =
  (acc ++ filter (fun y => negb (Set_has acc y)) (firstOccurrences l))%list.
Proof.
  induction l as [| x l IH]; intros acc; cbn [fold_left firstOccurrences filter].
  - rewrite app_nil_r. reflexivity.
  - rewrite IH. unfold Set_add. destruct (Set_has acc x) eqn:Hx; cbn [negb].
    + rewrite filter_remove_seen by exact Hx. reflexivity.
    + rewrite filter_remove_new, <- app_assoc. reflexivity.
Qed.

Lemma addTestNames_fold (results : option (list Normalised.TestResult)) (acc : StringSet) :
  addTestNames results acc = fold_left Set_add (namesOf results) acc.
Proof.
  destruct results as [rs|]; [|reflexivity]. cbn [addTestNames namesOf].
  revert acc. induction rs as [| r rs IH]; intros acc; [reflexivity|].
  cbn [fold_left map]. apply IH.
Qed.

Lemma collectTestNames_firstOccurrences
  (piResults claudeResults : option (list Normalised.TestResult)) :
  collectTestNames piResults claudeResults =
  firstOccurrences (namesOf piResults ++ namesOf claudeResults).
Proof.
  unfold collectTestNames. rewrite !addTestNames_fold, <- fold_left_app, fold_Set_add.
  cbn [app]. induction (firstOccurrences _) as [| y l IH]; [reflexivity|].
  cbn. f_equal. exact IH.
Qed.

Lemma In_remove_iff (x y : string) (l : list string) :
  In y (remove string_dec x l) <-> In y l /\ y <> x.
Proof.
  induction l as [| z l IH]; cbn [remove In]; [tauto|].
  destruct (string_dec x z) as [<- | Hne]; cbn [In]; rewrite IH.
  - split; [tauto|]. intros [[-> | H] Hn]; [congruence | tauto].
  - split; [|tauto]. intros [-> | H]; [split; [tauto | congruence] | tauto].
Qed.

Lemma NoDup_remove_all (x : string) (l : list string) :
  NoDup l -> NoDup (remove string_dec x l).
Proof.
  induction 1 as [| z l Hz Hl IH]; cbn [remove]; [constructor|].
  destruct (string_dec x z); [exact IH|].
  constructor; [|exact IH]. rewrite In_remove_iff. tauto.
Qed.

Lemma In_firstOccurrences (y : string) (l : list string) :
  In y (firstOccurrences l) <-> In y l.
Proof.
  induction l as [| x l IH]; cbn [firstOccurrences In]; [tauto|].
  rewrite In_remove_iff, IH. destruct (string_dec x y) as [E | E]; [tauto|].
  split; [tauto|]. intros [H | H]; [tauto|]. right. split; [exact H | congruence].
Qed.

Lemma NoDup_firstOccurrences (l : list string) : NoDup (firstOccurrences l).
Proof.
  induction l as [| x l IH]; cbn [firstOccurrences]; constructor.
  - rewrite In_remove_iff. tauto.
  - apply NoDup_remove_all, IH.
Qed.

Lemma findResult_missing (results : option (list Normalised.TestResult)) (name : string) :
  ~ In name (namesOf results) -> findResult results name = None.
Proof.
  destruct results as [rs|]; [|reflexivity]. cbn [namesOf findResult].
  induction rs as [| r rs IH]; cbn [map In find]; [reflexivity|].
  intros Hn. destruct (String.eqb_spec (Normalised.testName r) name) as [E | E]; tauto.
Qed.

Lemma map_testName_buildComparisons
  (piResults claudeResults : option (list Normalised.TestResult)) :
  map Comparison.testName (buildComparisons piResults claudeResults) =
  collectTestNames piResults claudeResults.
Proof.
  unfold buildComparisons. rewrite map_map. cbn [compareTest Comparison.testName].
  apply map_id.
Qed.

(** C4: when the result files that exist hold records and at least one
    exists, the script raises nothing and saves a report whose entries
    carry, in first-discovery order and once each, the task identifiers
    found in either loaded result set; for a task with no record in a
    participant's result set that participant's snapshot is all zero with
    [success = false], and the speed verdict of the entry is a tie. *)
Theorem C4_union_of_tasks (w : World) :
  wellFormed w ->
  files w PI_RESULTS <> None \/ files w CLAUDE_RESULTS <> None ->
  exists report,
    compareResults w = Saved REPORT report /\
    let names := map Comparison.testName (Report.comparisons report) in
    let piNames := namesOf (loaded w PI_RESULTS) in
    let claudeNames := namesOf (loaded w CLAUDE_RESULTS) in
    names = firstOccurrences (piNames ++ claudeNames) /\
    NoDup names /\
    (forall name, In name names <-> In name piNames \/ In name claudeNames) /\
    (forall c, In c (Report.comparisons report) ->
       (~ In (Comparison.testName c) piNames ->
        Comparison.piSdk c = zeroMetrics /\
        Winner.speed (Comparison.winner c) = speed_tie) /\
       (~ In (Comparison.testName c) claudeNames ->
        Comparison.claudeSdk c = zeroMetrics /\
        Winner.speed (Comparison.winner c) = speed_tie)).
Proof.
  intros W Hsome. eexists. split; [apply compareResults_saves; assumption|].
  cbv zeta. cbn [buildReport Report.comparisons].
  rewrite map_testName_buildComparisons, collectTestNames_firstOccurrences.
  split; [reflexivity|].
  split; [apply NoDup_firstOccurrences|].
  split; [intros name; rewrite In_firstOccurrences, in_app_iff; reflexivity|].
  intros c Hin. unfold buildComparisons in Hin. apply in_map_iff in Hin.
  destruct Hin as (name & <- & _).
  cbn [compareTest Comparison.testName Comparison.piSdk Comparison.claudeSdk
       Comparison.winner Winner.speed].
  split; intros Hmissing; rewrite (findResult_missing _ _ Hmissing);
    (split; [reflexivity|]); apply speedWinner_zero; [left | right]; reflexivity.
Qed.

Lemma C4_witness :
  exists report,
    compareResults partialWorld = Saved REPORT report /\
    map Comparison.testName (Report.comparisons report) =
      ["Bug Detection"; "Refactoring"; "Documentation"]%string /\
    (forall c, In c (Report.comparisons report) ->
       Comparison.testName c = "Refactoring"%string ->
       Comparison.claudeSdk c = zeroMetrics /\
       Winner.speed (Comparison.winner c) = speed_tie).
Proof.
  assert (W : wellFormed partialWorld) by (split; discriminate).
  assert (S : files partialWorld PI_RESULTS <> None \/ files partialWorld CLAUDE_RESULTS <> None)
    by (left; discriminate).
  destruct (C4_union_of_tasks partialWorld W S) as (report & E & Hnames & _ & _ & Hmissing).
  exists report. split; [exact E|]. split; [rewrite Hnames; reflexivity|].
  intros c Hin Hname. apply (Hmissing c Hin). rewrite Hname.
  vm_compute. intros [H | [H | H]]; [discriminate H | discriminate H | exact H].
Defined.

(** ** The end-to-end scenario *)

Lemma calculateBedrockCost_terms (tokensIn tokensOut : number) :
  calculateBedrockCost tokensIn tokensOut = inputCost tokensIn + outputCost tokensOut.
Proof. reflexivity. Qed.

(** C5, as stated, fails: in the scenario the output-token terms of the
    two costs are 0.03405 and 0.034275, not 0.03255 and 0.03278, and the
    costs are 0.0348 and 0.035025; none of the four is within 0.001 of the
    value the claim gives. *)
Lemma C5_stated_costs_are_off :
  ~ (near (Metrics.cost (Comparison.piSdk bugDetectionEntry)) 0.0335 0.001 = true \/
     near (Metrics.cost (Comparison.claudeSdk bugDetectionEntry)) 0.0335 0.001 = true \/
     near (outputCost 454) 0.03255 0.001 = true \/
     near (outputCost 457) 0.03278 0.001 = true).
Proof.
  intros [H | [H | [H | H]]]; vm_compute in H; discriminate H.
Qed.

(** C5, amended: whenever the two result files hold one record each for
    task "Bug Detection", the first with durationMs 7340, tokensIn 50 and
    tokensOut 454, the second with durationMs 8160, tokensIn 50 and
    tokensOut 457 (whatever cost they carry), the script saves a report
    with exactly one entry, for that task; its costs are 0.0348 and
    0.035025 (0.00075 from the input tokens, 0.03405 and 0.034275 from the
    output tokens), its speed verdict is [pi] and its cost verdict is
    [tie]. *)
Theorem C5_bug_detection_scenario (w : World) (restA restB : Raw.TestResult) :
  files w PI_RESULTS = Some (Records [camelOnly restA "Bug Detection" 50 454 7340]) ->
  files w CLAUDE_RESULTS = Some (Records [camelOnly restB "Bug Detection" 50 457 8160]) ->
  exists report c,
    compareResults w = Saved REPORT report /\
    Report.comparisons report = [c] /\
    Comparison.testName c = "Bug Detection"%string /\
    Metrics.duration (Comparison.piSdk c) = 7340 /\
    Metrics.duration (Comparison.claudeSdk c) = 8160 /\
    Metrics.cost (Comparison.piSdk c) = inputCost 50 + outputCost 454 /\
    Metrics.cost (Comparison.claudeSdk c) = inputCost 50 + outputCost 457 /\
    near (inputCost 50) 0.00075 1e-12 = true /\
    near (outputCost 454) 0.03405 1e-12 = true /\
    near (outputCost 457) 0.034275 1e-12 = true /\
    near (Metrics.cost (Comparison.piSdk c)) 0.0348 1e-12 = true /\
    near (Metrics.cost (Comparison.claudeSdk c)) 0.035025 1e-12 = true /\
    Winner.speed (Comparison.winner c) = speed_pi /\
    Winner.cost (Comparison.winner c) = cost_tie.
Proof.
  intros HA HB.
  set (piResults := Some [normaliseResult (camelOnly restA "Bug Detection" 50 454 7340)]).
  set (claudeResults := Some [normaliseResult (camelOnly restB "Bug Detection" 50 457 8160)]).
  exists (buildReport piResults claudeResults (now w)),
         (compareTest piResults claudeResults "Bug Detection").
  split.
  { unfold compareResults, loadResults. rewrite HA, HB. reflexivity. }
  repeat split; reflexivity.
Qed.

Lemma C5_witness :
  exists report c,
    compareResults bugDetectionWorld = Saved REPORT report /\
    Report.comparisons report = [c] /\
    Winner.speed (Comparison.winner c) = speed_pi /\
    Winner.cost (Comparison.winner c) = cost_tie.
Proof.
  destruct (C5_bug_detection_scenario bugDetectionWorld bugDetectionA bugDetectionB
              eq_refl eq_refl)
    as (report & c & E & Hcs & _ & _ & _ & _ & _ & _ & _ & _ & _ & _ & Hspeed & Hcost).
  exists report, c. repeat split; assumption.
Defined.

(** ** The summary *)

Lemma fold_sum_map {A} (f : A -> number) (l : list A) : forall acc : number,
  fold_left (fun sum c => sum + f c) l acc = fold_left add (map f l) acc.
Proof.
  induction l as [| x l IH]; intros acc; [reflexivity|]. cbn [fold_left map]. apply IH.
Qed.

Lemma length_filter_countWhere {A} (p : A -> bool) (l : list A) :
  List.length (filter p l) = countWhere p l.
Proof.
  induction l as [| x l IH]; [reflexivity|]. cbn [filter countWhere].
  destruct (p x); cbn [List.length]; rewrite IH; reflexivity.
Qed.

Lemma totalsOf_sums (sdk : Comparison.t -> Metrics.t) (cs : list Comparison.t) :
  totalsOf sdk cs =
  {| Totals.duration := total (map (fun c => Metrics.duration (sdk c)) cs);
     Totals.tokensIn := total (map (fun c => Metrics.tokensIn (sdk c)) cs);
     Totals.tokensOut := total (map (fun c => Metrics.tokensOut (sdk c)) cs);
     Totals.cost := total (map (fun c => Metrics.cost (sdk c)) cs);
     Totals.passed := countWhere (fun c => Metrics.success (sdk c)) cs |}.
Proof.
  unfold totalsOf, total. f_equal; solve [apply fold_sum_map | apply length_filter_countWhere].
Qed.

Lemma speed_counts_partition (cs : list Comparison.t) :
  (countWhere (isSpeed speed_pi) cs + countWhere (isSpeed speed_claude) cs +
   countWhere (isSpeed speed_tie) cs = List.length cs)%nat.
Proof.
  induction cs as [| c cs IH]; [reflexivity|].
  cbn [countWhere List.length]. unfold isSpeed in *.
  destruct (Winner.speed (Comparison.winner c)); lia.
Qed.

(** C7, as stated, fails: the summary of a saved report has the three
    members [piTotals], [claudeTotals] and [speedWins] and no tally of the
    cost verdicts.  In [tallyWorld], [pi] wins two tasks on cost, and no
    member of the summary holds that count. *)
Lemma C7_no_cost_tally :
  compareResults tallyWorld = Saved REPORT tallyReport /\
  countWhere (isCost cost_pi) (Report.comparisons tallyReport) = 2%nat /\
  keys (summaryValue (Report.summary tallyReport)) =
    ["piTotals"; "claudeTotals"; "speedWins"]%string /\
  ~ hasCostTally tallyReport.
Proof.
  split; [vm_compute; reflexivity|]. split; [vm_compute; reflexivity|].
  split; [vm_compute; reflexivity|].
  intros (key & tally & k & Hm & Hk).
  change (countWhere (isCost cost_pi) (Report.comparisons tallyReport)) with 2%nat in Hk.
  unfold summaryValue in Hm. cbn [member lookup] in Hm.
  repeat match type of Hm with
         | context [if String.eqb key ?s then _ else _] => destruct (String.eqb key s)
         end;
    try discriminate Hm; injection Hm as <-;
    unfold totalsValue, speedWinsValue in Hk; cbn [member lookup] in Hk;
    repeat match type of Hk with
           | context [if String.eqb k ?s then _ else _] => destruct (String.eqb k s)
           end;
    try discriminate Hk; vm_compute in Hk; discriminate Hk.
Qed.

(** C7, amended: the saved report has a [summary] with exactly the members
    [piTotals], [claudeTotals] and [speedWins].  Each participant's totals
    are the sums, over the entries in order, of its duration, input
    tokens, output tokens and cost, and the number of entries in which its
    [success] is true; [speedWins] gives the number of entries with speed
    verdict [pi], [claude] and [tie], which together count every entry
    once. *)
Theorem C7_summary (w : World) (file : string) (report : Report.t) :
  compareResults w = Saved file report ->
  let cs := Report.comparisons report in
  let s := Report.summary report in
  member "summary" (reportValue report) = Some (summaryValue s) /\
  keys (summaryValue s) = ["piTotals"; "claudeTotals"; "speedWins"]%string /\
  Summary.piTotals s =
    {| Totals.duration := total (map (fun c => Metrics.duration (Comparison.piSdk c)) cs);
       Totals.tokensIn := total (map (fun c => Metrics.tokensIn (Comparison.piSdk c)) cs);
       Totals.tokensOut := total (map (fun c => Metrics.tokensOut (Comparison.piSdk c)) cs);
       Totals.cost := total (map (fun c => Metrics.cost (Comparison.piSdk c)) cs);
       Totals.passed := countWhere (fun c => Metrics.success (Comparison.piSdk c)) cs |} /\
  Summary.claudeTotals s =
    {| Totals.duration := total (map (fun c => Metrics.duration (Comparison.claudeSdk c)) cs);
       Totals.tokensIn := total (map (fun c => Metrics.tokensIn (Comparison.claudeSdk c)) cs);
       Totals.tokensOut := total (map (fun c => Metrics.tokensOut (Comparison.claudeSdk c)) cs);
       Totals.cost := total (map (fun c => Metrics.cost (Comparison.claudeSdk c)) cs);
       Totals.passed := countWhere (fun c => Metrics.success (Comparison.claudeSdk c)) cs |} /\
  Summary.speedWins s =
    {| SpeedWins.pi := countWhere (isSpeed speed_pi) cs;
       SpeedWins.claude := countWhere (isSpeed speed_claude) cs;
       SpeedWins.tie := countWhere (isSpeed speed_tie) cs |} /\
  (SpeedWins.pi (Summary.speedWins s) + SpeedWins.claude (Summary.speedWins s) +
   SpeedWins.tie (Summary.speedWins s) = List.length cs)%nat.
Proof.
  intros E. apply compareResults_Saved in E. destruct E as [_ ->].
  cbv zeta. cbn [buildReport Report.comparisons Report.summary Summary.piTotals
                 Summary.claudeTotals Summary.speedWins].
  set (cs := buildComparisons _ _).
  split; [reflexivity|]. split; [reflexivity|].
  split; [apply totalsOf_sums|]. split; [apply totalsOf_sums|].
  assert (Hw : speedWinsOf cs =
               {| SpeedWins.pi := countWhere (isSpeed speed_pi) cs;
                  SpeedWins.claude := countWhere (isSpeed speed_claude) cs;
                  SpeedWins.tie := countWhere (isSpeed speed_tie) cs |}).
  { unfold speedWinsOf. rewrite !length_filter_countWhere. reflexivity. }
  split; [exact Hw|]. rewrite Hw. cbn [SpeedWins.pi SpeedWins.claude SpeedWins.tie].
  apply speed_counts_partition.
Qed.

Lemma C7_witness :
  Summary.speedWins (Report.summary tallyReport) =
    {| SpeedWins.pi := 1; SpeedWins.claude := 0; SpeedWins.tie := 1 |} /\
  Totals.passed (Summary.piTotals (Report.summary tallyReport)) = 1%nat.
Proof.
  destruct (C7_summary tallyWorld REPORT tallyReport tallyWorld_saved)
    as (_ & _ & Hpi & _ & Hwins & _).
  split; [rewrite Hwins | rewrite Hpi]; reflexivity.
Defined.

(** ** Runs of the script *)

(** C8: two runs that find the same two result files end the same way,
    whatever the clock and the other files are: both raise, or both print
    the same notice, or both save, under the same name, reports with the
    same entries and the same summary, whose serialised objects are equal
    once the [generatedAt] member is left out. *)
Theorem C8_deterministic_up_to_timestamp (w1 w2 : World) :
  files w1 PI_RESULTS = files w2 PI_RESULTS ->
  files w1 CLAUDE_RESULTS = files w2 CLAUDE_RESULTS ->
  match compareResults w1, compareResults w2 with
  | Saved file1 report1, Saved file2 report2 =>
      file1 = file2 /\
      Report.comparisons report1 = Report.comparisons report2 /\
      Report.summary report1 = Report.summary report2 /\
      withoutMember "generatedAt" (reportValue report1) =
      withoutMember "generatedAt" (reportValue report2)
  | NoResults console1, NoResults console2 => console1 = console2
  | Raised, Raised => True
  | _, _ => False
  end.
Proof.
  intros H1 H2. unfold compareResults, loadResults. rewrite H1, H2.
  destruct (files w2 PI_RESULTS) as [[d1|]|], (files w2 CLAUDE_RESULTS) as [[d2|]|];
    cbn [buildReport Report.comparisons Report.summary]; auto.
Qed.

Lemma C8_witness :
  withoutMember "generatedAt"
    (reportValue (buildReport (loaded bugDetectionWorld PI_RESULTS)
                              (loaded bugDetectionWorld CLAUDE_RESULTS)
                              (now bugDetectionWorld))) =
  withoutMember "generatedAt"
    (reportValue (buildReport (loaded bugDetectionWorldLater PI_RESULTS)
                              (loaded bugDetectionWorldLater CLAUDE_RESULTS)
                              (now bugDetectionWorldLater))).
Proof.
  exact (proj2 (proj2 (proj2
    (C8_deterministic_up_to_timestamp bugDetectionWorld bugDetectionWorldLater
       eq_refl eq_refl)))).
Defined.




(** * Further properties of the script *)

(** ** The normaliser, continued *)

Section Resolved.
Context {A : Type} `{ToBoolean A}.

(** What a dual lookup returns is truthy or is the default. *)
Lemma orDefault_resolved (a : option A) (d : A) :
  toBoolean (orDefault a d) = true \/ orDefault a d = d.
Proof.
  destruct a as [x|]; cbn [orDefault]; [|right; reflexivity].
  destruct (toBoolean x) eqn:E; [left; exact E | right; reflexivity].
Qed.

(** Looking a resolved value up again, under the camelCase name alone,
    returns it. *)
Lemma orDefault_again (a : option A) (d : A) :
  orDefault (orElse (Some (orDefault a d)) None) d = orDefault a d.
Proof.
  rewrite orDefault_camel.
  destruct (toBoolean (orDefault a d)) eqn:E; [reflexivity|].
  destruct (orDefault_resolved a d) as [T | ->]; [congruence | reflexivity].
Qed.

End Resolved.

Lemma resolved_number_plain (a : option number) : plainNumber (orDefault a 0).
Proof.
  destruct (orDefault_resolved a 0) as [T | ->]; [|split; reflexivity].
  set (x := orDefault a 0) in *. clearbody x.
  unfold plainNumber. unfold toBoolean, number_ToBoolean, is_zero in T.
  change PrimFloat.zero with 0 in T.
  destruct (is_nan x); [discriminate|]. split; [reflexivity|].
  intros Z. rewrite Z in T. discriminate.
Qed.

Lemma normalised_fields_plain (r : Raw.TestResult) :
  Normalised.testName (normaliseResult r) <> ""%string /\
  plainNumber (Normalised.tokensIn (normaliseResult r)) /\
  plainNumber (Normalised.tokensOut (normaliseResult r)) /\
  plainNumber (Normalised.durationMs (normaliseResult r)).
Proof.
  unfold normaliseResult.
  cbn [Normalised.testName Normalised.tokensIn Normalised.tokensOut Normalised.durationMs].
  split; [|auto using resolved_number_plain].
  destruct (orDefault_resolved (orElse (Raw.testName r) (Raw.test_name r)) "Unknown"%string)
    as [T | ->]; [|discriminate].
  intros E. rewrite E in T. discriminate.
Qed.

(** X1: normalising a record that is already normalised changes nothing. *)
Theorem X1_normalise_idempotent (r : Raw.TestResult) :
  normaliseResult (asRaw (normaliseResult r)) = normaliseResult r.
Proof.
  unfold normaliseResult at 1. unfold asRaw.
  cbn [Raw.testName Raw.test_name Raw.tokensIn Raw.tokens_in Raw.tokensOut
       Raw.tokens_out Raw.durationMs Raw.duration_ms Raw.framework Raw.model
       Raw.prompt Raw.response Raw.success Raw.error Raw.cost].
  unfold normaliseResult.
  cbn [Normalised.testName Normalised.tokensIn Normalised.tokensOut Normalised.durationMs
       Normalised.framework Normalised.model Normalised.prompt Normalised.response
       Normalised.success Normalised.error Normalised.cost].
  rewrite !orDefault_again. reflexivity.
Qed.

(** X2: in a normalised record the task name is never empty, and the token
    counts and the duration are never [NaN] and never [-0]. *)
Theorem X2_normalised_fields_are_plain (r : Raw.TestResult) :
  Normalised.testName (normaliseResult r) <> ""%string /\
  plainNumber (Normalised.tokensIn (normaliseResult r)) /\
  plainNumber (Normalised.tokensOut (normaliseResult r)) /\
  plainNumber (Normalised.durationMs (normaliseResult r)).
Proof. exact (normalised_fields_plain r). Qed.

(** X3: a camelCase value that is truthy is taken as it is, whatever the
    snake_case property holds: a non-zero number, negative ones included,
    and a non-empty name. *)
Theorem X3_truthy_camel_value_wins (r : Raw.TestResult) :
  (forall x, Raw.tokensIn r = Some x -> (x <? 0) || (0 <? x) = true ->
             Normalised.tokensIn (normaliseResult r) = x) /\
  (forall x, Raw.tokensOut r = Some x -> (x <? 0) || (0 <? x) = true ->
             Normalised.tokensOut (normaliseResult r) = x) /\
  (forall x, Raw.durationMs r = Some x -> (x <? 0) || (0 <? x) = true ->
             Normalised.durationMs (normaliseResult r) = x) /\
  (forall a s, Raw.testName r = Some (String a s) ->
               Normalised.testName (normaliseResult r) = String a s).
Proof.
  assert (number_case : forall (a b : option number) (x : number),
            a = Some x -> (x <? 0) || (0 <? x) = true ->
            orDefault (orElse a b) (0 : number) = x).
  { intros a b x -> Hx. apply Binary64.nonzero_toBoolean in Hx.
    unfold orElse. rewrite Hx. cbn [orDefault]. rewrite Hx. reflexivity. }
  unfold normaliseResult; cbn [Normalised.tokensIn Normalised.tokensOut
    Normalised.durationMs Normalised.testName].
  repeat split; eauto.
  intros a s ->. reflexivity.
Qed.

Lemma X3_witness :
  Normalised.tokensIn (normaliseResult bothNamesRecord) = 50 /\
  Normalised.tokensOut (normaliseResult bothNamesRecord) = 454 /\
  Normalised.durationMs (normaliseResult bothNamesRecord) = (-5) /\
  Normalised.testName (normaliseResult bothNamesRecord) = "Bug Detection"%string.
Proof.
  destruct (X3_truthy_camel_value_wins bothNamesRecord) as (Hin & Hout & Hdur & Hname).
  split; [apply (Hin 50); reflexivity|].
  split; [apply (Hout 454); reflexivity|].
  split; [apply (Hdur (-5)); reflexivity|].
  apply (Hname "B"%char "ug Detection"%string); reflexivity.
Defined.

Lemma plainNumber_resolved (x : number) : plainNumber x -> toBoolean x = true \/ x = 0.
Proof.
  intros [N Z]. unfold toBoolean, number_ToBoolean. rewrite N.
  unfold is_zero. change PrimFloat.zero with 0.
  destruct (x =? 0) eqn:E; [right; auto | left; reflexivity].
Qed.

Lemma plainNumber_orDefault (x : number) : plainNumber x -> orDefault (Some x) 0 = x.
Proof.
  intros P. cbn [orDefault]. destruct (toBoolean x) eqn:T; [reflexivity|].
  destruct (plainNumber_resolved x P) as [T' | ->]; [congruence | reflexivity].
Qed.

Lemma metricsOf_normalised (r : Raw.TestResult) :
  Metrics.duration (metricsOf (Some (normaliseResult r))) =
    Normalised.durationMs (normaliseResult r) /\
  Metrics.tokensIn (metricsOf (Some (normaliseResult r))) =
    Normalised.tokensIn (normaliseResult r) /\
  Metrics.tokensOut (metricsOf (Some (normaliseResult r))) =
    Normalised.tokensOut (normaliseResult r).
Proof.
  destruct (normalised_fields_plain r) as (_ & Pin & Pout & Pdur).
  unfold metricsOf. cbn [Metrics.duration Metrics.tokensIn Metrics.tokensOut option_map].
  rewrite !plainNumber_orDefault by assumption. repeat split.
Qed.

Lemma metricsOf_success (n : Normalised.TestResult) :
  Metrics.success (metricsOf (Some n)) = Normalised.success n.
Proof.
  unfold metricsOf. cbn [Metrics.success option_map orDefault].
  unfold toBoolean, bool_ToBoolean. destruct (Normalised.success n); reflexivity.
Qed.

(** X4: the snapshot built from a normalised record carries its duration,
    token counts and success flag unchanged: on these the second round of
    defaults in the comparison is without effect. *)
Theorem X4_snapshot_copies_record (r : Raw.TestResult) :
  let n := normaliseResult r in
  Metrics.duration (metricsOf (Some n)) = Normalised.durationMs n /\
  Metrics.tokensIn (metricsOf (Some n)) = Normalised.tokensIn n /\
  Metrics.tokensOut (metricsOf (Some n)) = Normalised.tokensOut n /\
  Metrics.success (metricsOf (Some n)) = Normalised.success n.
Proof.
  cbv zeta. destruct (metricsOf_normalised r) as (Hd & Hi & Ho).
  repeat split; try assumption. apply metricsOf_success.
Qed.

(** For token counts with a plus sign the cost has a plus sign. *)
Lemma calculateBedrockCost_plus (tokensIn tokensOut : number) :
  Binary64.isPlus (Prim2SF tokensIn) = true -> Binary64.isPlus (Prim2SF tokensOut) = true ->
  Binary64.isPlus (Prim2SF (calculateBedrockCost tokensIn tokensOut)) = true.
Proof.
  intros Pin Pout. unfold calculateBedrockCost, BEDROCK_INPUT_PRICE, BEDROCK_OUTPUT_PRICE.
  assert (E6 : Prim2SF 1000000 = S754_finite false 8589934592000000 (-33))
    by (vm_compute; reflexivity).
  assert (E15 : Prim2SF 15.0 = S754_finite false 8444249301319680 (-49))
    by (vm_compute; reflexivity).
  assert (E75 : Prim2SF 75.0 = S754_finite false 5277655813324800 (-46))
    by (vm_compute; reflexivity).
  apply Binary64.add_plus.
  - eapply Binary64.mul_plus; [exact E15|]. eapply Binary64.div_plus; [exact E6 | exact Pin].
  - eapply Binary64.mul_plus; [exact E75|]. eapply Binary64.div_plus; [exact E6 | exact Pout].
Qed.

(** X5: when the resolved token counts of a record are not negative, its
    recomputed cost is not negative and is not [NaN], and the snapshot of
    the comparison carries it unchanged. *)
Theorem X5_cost_is_not_negative (r : Raw.TestResult) :
  let n := normaliseResult r in
  (0 <=? Normalised.tokensIn n) = true ->
  (0 <=? Normalised.tokensOut n) = true ->
  (0 <=? Normalised.cost n) = true /\
  is_nan (Normalised.cost n) = false /\
  Metrics.cost (metricsOf (Some n)) = Normalised.cost n.
Proof.
  cbv zeta. intros Hin Hout.
  destruct (normalised_fields_plain r) as (_ & Pin & Pout & _).
  assert (P : Binary64.isPlus (Prim2SF (Normalised.cost (normaliseResult r))) = true).
  { apply calculateBedrockCost_plus; apply Binary64.resolved_isPlus;
      auto using plainNumber_resolved. }
  split; [apply Binary64.isPlus_leb, P|].
  split; [apply Binary64.isPlus_not_nan, P|].
  unfold metricsOf. cbn [Metrics.cost option_map]. apply Binary64.isPlus_orDefault, P.
Qed.

Lemma X5_witness :
  (0 <=? Normalised.cost (normaliseResult bugDetectionA)) = true /\
  Metrics.cost (metricsOf (Some (normaliseResult bugDetectionA))) =
    Normalised.cost (normaliseResult bugDetectionA).
Proof.
  destruct (X5_cost_is_not_negative bugDetectionA eq_refl eq_refl) as (H & _ & K).
  split; assumption.
Defined.

(** ** The entries, continued *)

Lemma loaded_normalised (w : World) (filename : string) (rs : list Normalised.TestResult) :
  loaded w filename = Some rs -> exists data, rs = map normaliseResult data.
Proof.
  unfold loaded. destruct (files w filename) as [[data|]|]; try discriminate.
  intros E. inversion E. eauto.
Qed.

Lemma saved_report (w : World) (file : string) (report : Report.t) :
  compareResults w = Saved file report -> report = reportOf w.
Proof. intros E. apply compareResults_Saved in E. tauto. Qed.

Lemma Set_has_firstOccurrences (l : list string) (y : string) :
  Set_has (firstOccurrences l) y = Set_has l y.
Proof.
  apply eq_true_iff_eq. rewrite !Set_has_In. apply In_firstOccurrences.
Qed.

Lemma collectTestNames_split (piResults claudeResults : option (list Normalised.TestResult)) :
  collectTestNames piResults claudeResults =
  firstOccurrences (namesOf piResults) ++
  filter (fun y => negb (existsb (String.eqb y) (namesOf piResults)))
         (firstOccurrences (namesOf claudeResults)).
Proof.
  unfold collectTestNames. rewrite !addTestNames_fold.
  rewrite (fold_Set_add (namesOf piResults) []). cbn [app].
  assert (Hid : forall l : list string, filter (fun y => negb (Set_has [] y)) l = l).
  { induction l as [| y l IH]; [reflexivity|]. cbn. f_equal. exact IH. }
  rewrite Hid, fold_Set_add. f_equal.
  apply filter_ext. intros y. rewrite Set_has_firstOccurrences. reflexivity.
Qed.

Lemma remove_absent (x : string) (l : list string) : ~ In x l -> remove string_dec x l = l.
Proof.
  induction l as [| y l IH]; intros Hn; [reflexivity|]. cbn [remove].
  destruct (string_dec x y) as [-> | Hne]; [exfalso; apply Hn; left; reflexivity|].
  f_equal. apply IH. intros Hin. apply Hn. right. exact Hin.
Qed.

Lemma firstOccurrences_NoDup (l : list string) : NoDup l -> firstOccurrences l = l.
Proof.
  induction 1 as [| x l Hx Hl IH]; [reflexivity|]. cbn [firstOccurrences].
  rewrite IH, remove_absent by exact Hx. reflexivity.
Qed.

(** X6: the entries of a saved report list the distinct tasks of the first
    result set in file order, followed by the tasks that only the second
    result set has, in its order; when the first result set names no task
    twice, the report starts with its tasks exactly as the file lists
    them. *)
Theorem X6_entry_order (w : World) (file : string) (report : Report.t) :
  compareResults w = Saved file report ->
  let names := map Comparison.testName (Report.comparisons report) in
  let piNames := namesOf (loaded w PI_RESULTS) in
  let claudeNames := namesOf (loaded w CLAUDE_RESULTS) in
  let claudeOnly :=
    filter (fun y => negb (existsb (String.eqb y) piNames)) (firstOccurrences claudeNames) in
  names = firstOccurrences piNames ++ claudeOnly /\
  (NoDup piNames -> names = piNames ++ claudeOnly).
Proof.
  intros E. apply saved_report in E. subst report. cbv zeta.
  unfold reportOf. cbn [buildReport Report.comparisons].
  rewrite map_testName_buildComparisons, collectTestNames_split.
  split; [reflexivity|]. intros Hnd. rewrite firstOccurrences_NoDup by exact Hnd. reflexivity.
Qed.

Lemma X6_witness :
  map Comparison.testName (Report.comparisons (reportOf duplicateWorld)) =
    ["Bug Detection"; "Refactoring"]%string /\
  map Comparison.testName (Report.comparisons (reportOf partialWorld)) =
    ["Bug Detection"; "Refactoring"; "Documentation"]%string.
Proof.
  assert (D : compareResults duplicateWorld = Saved REPORT (reportOf duplicateWorld))
    by (vm_compute; reflexivity).
  destruct (X6_entry_order duplicateWorld REPORT _ D) as (H1 & _).
  destruct (X6_entry_order partialWorld REPORT _ partialWorld_saved) as (_ & H2).
  split; [rewrite H1; reflexivity|].
  rewrite H2; [reflexivity|]. vm_compute. repeat constructor; cbn; intuition discriminate.
Defined.

Lemma find_first (name : string) (l1 : list Normalised.TestResult)
  (r : Normalised.TestResult) (l2 : list Normalised.TestResult) :
  (forall x, In x l1 -> Normalised.testName x <> name) ->
  Normalised.testName r = name ->
  find (fun x => String.eqb (Normalised.testName x) name) (l1 ++ r :: l2) = Some r.
Proof.
  intros Hl1 Hr. induction l1 as [| a l1 IH]; cbn [app find].
  - rewrite Hr, String.eqb_refl. reflexivity.
  - destruct (String.eqb_spec (Normalised.testName a) name) as [E | E].
    + exfalso. apply (Hl1 a); [left; reflexivity | exact E].
    + apply IH. intros x Hx. apply Hl1. right. exact Hx.
Qed.

Lemma comparison_by_name (piResults claudeResults : option (list Normalised.TestResult))
  (c : Comparison.t) :
  In c (buildComparisons piResults claudeResults) ->
  c = compareTest piResults claudeResults (Comparison.testName c).
Proof.
  unfold buildComparisons. intros Hin. apply in_map_iff in Hin.
  destruct Hin as (name & <- & _). reflexivity.
Qed.

(** X7: when a result set holds several records for one task, the entry of
    that task is built from the first of them, and there is no other entry
    for the task: later records with the same name are never reported. *)
Theorem X7_first_record_wins (w : World) (file : string) (report : Report.t)
  (l1 : list Normalised.TestResult) (r : Normalised.TestResult)
  (l2 : list Normalised.TestResult) :
  compareResults w = Saved file report ->
  (forall x, In x l1 -> Normalised.testName x <> Normalised.testName r) ->
  (loaded w PI_RESULTS = Some (l1 ++ r :: l2) ->
   exists c, In c (Report.comparisons report) /\
             Comparison.testName c = Normalised.testName r /\
             Comparison.piSdk c = metricsOf (Some r) /\
             forall c', In c' (Report.comparisons report) ->
                        Comparison.testName c' = Normalised.testName r -> c' = c) /\
  (loaded w CLAUDE_RESULTS = Some (l1 ++ r :: l2) ->
   exists c, In c (Report.comparisons report) /\
             Comparison.testName c = Normalised.testName r /\
             Comparison.claudeSdk c = metricsOf (Some r) /\
             forall c', In c' (Report.comparisons report) ->
                        Comparison.testName c' = Normalised.testName r -> c' = c).
Proof.
  intros E Hl1. apply saved_report in E. subst report.
  unfold reportOf. cbn [buildReport Report.comparisons].
  set (piResults := loaded w PI_RESULTS). set (claudeResults := loaded w CLAUDE_RESULTS).
  assert (Hname : forall results, results = Some (l1 ++ r :: l2) ->
            In (Normalised.testName r) (namesOf results)).
  { intros results ->. cbn [namesOf]. apply in_map, in_or_app. right. left. reflexivity. }
  assert (Hlisted : piResults = Some (l1 ++ r :: l2) \/ claudeResults = Some (l1 ++ r :: l2) ->
            In (compareTest piResults claudeResults (Normalised.testName r))
               (buildComparisons piResults claudeResults)).
  { intros Hor. unfold buildComparisons. apply in_map.
    rewrite collectTestNames_firstOccurrences, In_firstOccurrences. apply in_or_app.
    destruct Hor as [H | H]; [left | right]; apply Hname, H. }
  assert (Hunique : forall c', In c' (buildComparisons piResults claudeResults) ->
            Comparison.testName c' = Normalised.testName r ->
            c' = compareTest piResults claudeResults (Normalised.testName r)).
  { intros c' Hin Hn. rewrite (comparison_by_name _ _ c' Hin), Hn. reflexivity. }
  split; intros Hl; (eexists; split; [apply Hlisted; auto|]);
    (split; [reflexivity|]); (split; [|exact Hunique]);
    cbn [compareTest Comparison.piSdk Comparison.claudeSdk]; rewrite Hl;
    cbn [findResult]; rewrite find_first by auto; reflexivity.
Qed.

Lemma X7_witness :
  exists c,
    In c (Report.comparisons (reportOf duplicateWorld)) /\
    Comparison.testName c = "Bug Detection"%string /\
    Metrics.duration (Comparison.piSdk c) = 7340.
Proof.
  assert (D : compareResults duplicateWorld = Saved REPORT (reportOf duplicateWorld))
    by (vm_compute; reflexivity).
  destruct (X7_first_record_wins duplicateWorld REPORT (reportOf duplicateWorld)
              [] (normaliseResult (rawRecord "Bug Detection" 7340 50 454 0 true))
              (map normaliseResult [rawRecord "Refactoring" 20520 120 1337 0 true;
                                    rawRecord "Bug Detection" 9999 70 900 0 false])
              D (fun x (H : In x []) => match H with end)) as (Hpi & _).
  destruct (Hpi eq_refl) as (c & Hin & Hname & Hsdk & _).
  exists c. split; [exact Hin|]. split; [exact Hname|]. rewrite Hsdk. reflexivity.
Defined.

(** ** The totals, continued *)

Lemma find_own (rs : list Normalised.TestResult) :
  NoDup (map Normalised.testName rs) ->
  forall r, In r rs ->
    find (fun x => String.eqb (Normalised.testName x) (Normalised.testName r)) rs = Some r.
Proof.
  induction rs as [| a rs IH]; intros Hnd r Hin; [destruct Hin|].
  cbn [map] in Hnd. inversion Hnd as [| ? ? Ha Hrs]; subst. cbn [find].
  destruct Hin as [-> | Hin]; [rewrite String.eqb_refl; reflexivity|].
  destruct (String.eqb_spec (Normalised.testName a) (Normalised.testName r)) as [E | E].
  - exfalso. apply Ha. rewrite E. apply in_map, Hin.
  - apply IH; assumption.
Qed.

(** The snapshots of the first participant, entry by entry, when its result
    set names no task twice: those of its records, then zeros. *)
Lemma piSdk_of_comparisons (rs : list Normalised.TestResult)
  (claudeResults : option (list Normalised.TestResult)) :
  NoDup (map Normalised.testName rs) ->
  exists others : list string,
    map Comparison.piSdk (buildComparisons (Some rs) claudeResults) =
    map (fun r => metricsOf (Some r)) rs ++ map (fun _ => zeroMetrics) others.
Proof.
  intros Hnd.
  exists (filter (fun y => negb (existsb (String.eqb y) (map Normalised.testName rs)))
                 (firstOccurrences (namesOf claudeResults))).
  unfold buildComparisons.
  rewrite collectTestNames_split. cbn [namesOf]. rewrite firstOccurrences_NoDup by exact Hnd.
  rewrite !map_app, !map_map. cbn [compareTest Comparison.piSdk namesOf]. f_equal.
  - apply map_ext_in. intros r Hin. cbn [findResult]. rewrite find_own by assumption.
    reflexivity.
  - apply map_ext_in. intros y Hy. apply filter_In in Hy. destruct Hy as [_ Hy].
    rewrite findResult_missing; [reflexivity|].
    cbn [namesOf]. intros Hin. apply negb_true_iff in Hy.
    assert (Ht : existsb (String.eqb y) (map Normalised.testName rs) = true).
    { apply existsb_exists. exists y. split; [exact Hin | apply String.eqb_refl]. }
    congruence.
Qed.

Lemma fold_add_notNegZero (xs : list number) : forall acc : number,
  Binary64.notNegZero (Prim2SF acc) = true ->
  Binary64.notNegZero (Prim2SF (fold_left add xs acc)) = true.
Proof.
  induction xs as [| x xs IH]; intros acc H; [exact H|].
  cbn [fold_left]. apply IH, Binary64.add_notNegZero, H.
Qed.

Lemma fold_add_zeros (n : nat) (acc : number) :
  Binary64.notNegZero (Prim2SF acc) = true ->
  fold_left add (repeat (0 : number) n) acc = acc.
Proof.
  intros H. induction n as [| n IH]; [reflexivity|].
  cbn [repeat fold_left]. rewrite Binary64.add_zero_r by exact H. exact IH.
Qed.

(** Zeros at the end of a sequence do not change its total. *)
Lemma total_app_zeros (xs : list number) (n : nat) :
  total (xs ++ repeat (0 : number) n) = total xs.
Proof.
  unfold total. rewrite fold_left_app. apply fold_add_zeros, fold_add_notNegZero.
  reflexivity.
Qed.

Lemma map_const_repeat {A} (z : number) (l : list A) :
  map (fun _ => z) l = repeat z (List.length l).
Proof. induction l as [| x l IH]; [reflexivity|]. cbn. f_equal. exact IH. Qed.

Lemma countWhere_app {A} (p : A -> bool) (l1 l2 : list A) :
  countWhere p (l1 ++ l2) = (countWhere p l1 + countWhere p l2)%nat.
Proof.
  induction l1 as [| x l1 IH]; [reflexivity|]. cbn [app countWhere].
  destruct (p x); rewrite IH; reflexivity.
Qed.

Lemma countWhere_map {A B} (f : A -> B) (p : B -> bool) (l : list A) :
  countWhere p (map f l) = countWhere (fun x => p (f x)) l.
Proof.
  induction l as [| x l IH]; [reflexivity|]. cbn [map countWhere]. rewrite IH. reflexivity.
Qed.

Lemma countWhere_ext {A} (p q : A -> bool) (l : list A) :
  (forall x, In x l -> p x = q x) -> countWhere p l = countWhere q l.
Proof.
  induction l as [| x l IH]; intros H; [reflexivity|]. cbn [countWhere].
  rewrite (H x) by (left; reflexivity). rewrite IH; [reflexivity|].
  intros y Hy. apply H. right. exact Hy.
Qed.

Lemma countWhere_none {A} (p : A -> bool) (l : list A) :
  (forall x, In x l -> p x = false) -> countWhere p l = O.
Proof.
  induction l as [| x l IH]; intros H; [reflexivity|]. cbn [countWhere].
  rewrite (H x) by (left; reflexivity). apply IH. intros y Hy. apply H. right. exact Hy.
Qed.

(** The total of one metric of the first participant over the entries. *)
Lemma pi_total_of_metric (g : Metrics.t -> number) (h : Normalised.TestResult -> number)
  (rs : list Normalised.TestResult) (claudeResults : option (list Normalised.TestResult)) :
  NoDup (map Normalised.testName rs) ->
  (forall r, In r rs -> g (metricsOf (Some r)) = h r) ->
  g zeroMetrics = 0 ->
  fold_left (fun sum c => sum + g (Comparison.piSdk c))
            (buildComparisons (Some rs) claudeResults) 0 =
  total (map h rs).
Proof.
  intros Hnd Hg Hz. rewrite fold_sum_map.
  destruct (piSdk_of_comparisons rs claudeResults Hnd) as (others & Hsdk).
  rewrite <- (map_map Comparison.piSdk g), Hsdk, map_app, !map_map.
  rewrite Hz, map_const_repeat.
  rewrite (map_ext_in _ h) by exact Hg. apply total_app_zeros.
Qed.

(** X8: when the first result set names no task twice, its totals in the
    summary are the totals of its own records in file order, whatever
    tasks the second result set adds: total duration, input tokens and
    output tokens, and the number of records with [success] true. *)
Theorem X8_first_participant_totals (w : World) (file : string) (report : Report.t)
  (rs : list Normalised.TestResult) :
  compareResults w = Saved file report ->
  loaded w PI_RESULTS = Some rs ->
  NoDup (map Normalised.testName rs) ->
  let t := Summary.piTotals (Report.summary report) in
  Totals.duration t = total (map Normalised.durationMs rs) /\
  Totals.tokensIn t = total (map Normalised.tokensIn rs) /\
  Totals.tokensOut t = total (map Normalised.tokensOut rs) /\
  Totals.passed t = countWhere Normalised.success rs.
Proof.
  intros E Hl Hnd. apply saved_report in E. subst report. cbv zeta.
  unfold reportOf. rewrite Hl.
  cbn [buildReport Report.summary Summary.piTotals totalsOf Totals.duration
       Totals.tokensIn Totals.tokensOut Totals.passed].
  destruct (loaded_normalised _ _ _ Hl) as (data & Hdata).
  assert (Hcopy : forall r, In r rs ->
            Metrics.duration (metricsOf (Some r)) = Normalised.durationMs r /\
            Metrics.tokensIn (metricsOf (Some r)) = Normalised.tokensIn r /\
            Metrics.tokensOut (metricsOf (Some r)) = Normalised.tokensOut r).
  { intros r Hin. rewrite Hdata in Hin. apply in_map_iff in Hin.
    destruct Hin as (raw & <- & _). apply metricsOf_normalised. }
  split; [apply pi_total_of_metric; [exact Hnd | intros r Hin; apply Hcopy, Hin | reflexivity]|].
  split; [apply pi_total_of_metric; [exact Hnd | intros r Hin; apply Hcopy, Hin | reflexivity]|].
  split; [apply pi_total_of_metric; [exact Hnd | intros r Hin; apply Hcopy, Hin | reflexivity]|].
  rewrite length_filter_countWhere.
  destruct (piSdk_of_comparisons rs (loaded w CLAUDE_RESULTS) Hnd) as (others & Hsdk).
  rewrite <- (countWhere_map Comparison.piSdk Metrics.success), Hsdk, countWhere_app.
  rewrite !countWhere_map.
  rewrite (countWhere_none _ others) by reflexivity.
  rewrite Nat.add_0_r. apply countWhere_ext. intros r _. apply metricsOf_success.
Qed.

Lemma X8_witness :
  Totals.duration (Summary.piTotals (Report.summary (reportOf partialWorld))) = 7340 + 20520 /\
  Totals.passed (Summary.piTotals (Report.summary (reportOf partialWorld))) = 2%nat.
Proof.
  assert (Hnd : NoDup (map Normalised.testName
                         (map normaliseResult
                            [bugDetectionA; rawRecord "Refactoring" 20520 120 1337 0 true]))).
  { vm_compute. repeat constructor; cbn; intuition discriminate. }
  destruct (X8_first_participant_totals partialWorld REPORT (reportOf partialWorld) _
              partialWorld_saved eq_refl Hnd) as (Hd & _ & _ & Hp).
  split; [rewrite Hd | rewrite Hp]; vm_compute; reflexivity.
Defined.

Lemma fold_sum_zero {A} (f : A -> number) (l : list A) :
  (forall x, In x l -> f x = 0) -> fold_left (fun sum c => sum + f c) l 0 = 0.
Proof.
  induction l as [| x l IH]; intros H; [reflexivity|]. cbn [fold_left].
  rewrite (H x) by (left; reflexivity). change (0 + 0) with (0 : number).
  apply IH. intros y Hy. apply H. right. exact Hy.
Qed.

Lemma totalsOf_zero (sdk : Comparison.t -> Metrics.t) (cs : list Comparison.t) :
  (forall c, In c cs -> sdk c = zeroMetrics) -> totalsOf sdk cs = zeroTotals.
Proof.
  intros H. unfold totalsOf, zeroTotals.
  rewrite !fold_sum_zero by (intros c Hc; rewrite (H c Hc); reflexivity).
  rewrite length_filter_countWhere, countWhere_none; [reflexivity|].
  intros c Hc. rewrite (H c Hc). reflexivity.
Qed.

(** X9: a participant whose result file is missing has an all-zero column
    in a saved report: each of its totals is [0] and it passed no test. *)
Theorem X9_missing_participant_totals (w : World) (file : string) (report : Report.t) :
  compareResults w = Saved file report ->
  (files w PI_RESULTS = None -> Summary.piTotals (Report.summary report) = zeroTotals) /\
  (files w CLAUDE_RESULTS = None -> Summary.claudeTotals (Report.summary report) = zeroTotals).
Proof.
  intros E. apply saved_report in E. subst report.
  unfold reportOf, loaded.
  cbn [buildReport Report.summary Summary.piTotals Summary.claudeTotals].
  split; intros Hnone; rewrite Hnone; apply totalsOf_zero; intros c Hin;
    rewrite (comparison_by_name _ _ c Hin); reflexivity.
Qed.

Lemma X9_witness :
  Summary.claudeTotals (Report.summary (reportOf piOnlyWorld)) = zeroTotals /\
  Summary.piTotals (Report.summary (reportOf claudeOnlyWorld)) = zeroTotals.
Proof.
  assert (P : compareResults piOnlyWorld = Saved REPORT (reportOf piOnlyWorld))
    by (vm_compute; reflexivity).
  assert (C : compareResults claudeOnlyWorld = Saved REPORT (reportOf claudeOnlyWorld))
    by (vm_compute; reflexivity).
  destruct (X9_missing_participant_totals piOnlyWorld REPORT _ P) as (_ & H1).
  destruct (X9_missing_participant_totals claudeOnlyWorld REPORT _ C) as (H2 & _).
  split; [apply H1 | apply H2]; reflexivity.
Defined.

Lemma countWhere_le {A} (p : A -> bool) (l : list A) : (countWhere p l <= List.length l)%nat.
Proof.
  induction l as [| x l IH]; [apply Nat.le_refl|]. cbn [countWhere List.length].
  destruct (p x); lia.
Qed.

Lemma remove_length (x : string) (l : list string) :
  (List.length (remove string_dec x l) <= List.length l)%nat.
Proof.
  induction l as [| y l IH]; [apply Nat.le_refl|]. cbn [remove].
  destruct (string_dec x y); cbn [List.length]; lia.
Qed.

Lemma firstOccurrences_length (l : list string) :
  (List.length (firstOccurrences l) <= List.length l)%nat.
Proof.
  induction l as [| x l IH]; [apply Nat.le_refl|]. cbn [firstOccurrences List.length].
  pose proof (remove_length x (firstOccurrences l)). lia.
Qed.

(** X10: a saved report never has more entries than the two result sets
    have records together, and no participant passes more tests than there
    are entries. *)
Theorem X10_counts_are_bounded (w : World) (file : string) (report : Report.t) :
  compareResults w = Saved file report ->
  let n := List.length (Report.comparisons report) in
  (n <= List.length (namesOf (loaded w PI_RESULTS))
        + List.length (namesOf (loaded w CLAUDE_RESULTS)))%nat /\
  (Totals.passed (Summary.piTotals (Report.summary report)) <= n)%nat /\
  (Totals.passed (Summary.claudeTotals (Report.summary report)) <= n)%nat.
Proof.
  intros E. apply saved_report in E. subst report. cbv zeta.
  unfold reportOf.
  cbn [buildReport Report.comparisons Report.summary Summary.piTotals Summary.claudeTotals
       totalsOf Totals.passed].
  rewrite !length_filter_countWhere. split; [|split; apply countWhere_le].
  unfold buildComparisons. rewrite length_map, collectTestNames_firstOccurrences.
  rewrite <- length_app. apply firstOccurrences_length.
Qed.

Lemma X10_witness :
  (List.length (Report.comparisons (reportOf duplicateWorld)) <= 3 + 1)%nat.
Proof.
  assert (D : compareResults duplicateWorld = Saved REPORT (reportOf duplicateWorld))
    by (vm_compute; reflexivity).
  exact (proj1 (X10_counts_are_bounded duplicateWorld REPORT _ D)).
Defined.



(** X12: when every result file that exists holds an empty array, and at
    least one exists, the script still saves a report: it has no entry,
    all totals and tallies are zero, and the overall speed is "too close
    to call". *)
Theorem X12_empty_result_sets (w : World) :
  files w PI_RESULTS = Some (Records []) \/ files w CLAUDE_RESULTS = Some (Records []) ->
  files w PI_RESULTS = None \/ files w PI_RESULTS = Some (Records []) ->
  files w CLAUDE_RESULTS = None \/ files w CLAUDE_RESULTS = Some (Records []) ->
  compareResults w =
    Saved REPORT
      {| Report.comparisons := [];
         Report.summary :=
           {| Summary.piTotals := zeroTotals;
              Summary.claudeTotals := zeroTotals;
              Summary.speedWins :=
                {| SpeedWins.pi := 0; SpeedWins.claude := 0; SpeedWins.tie := 0 |} |};
         Report.generatedAt := now w |} /\
  overallSpeed zeroTotals zeroTotals = overall_close.
Proof.
  intros Hsome Hpi Hclaude. split; [|reflexivity].
  unfold compareResults, loadResults.
  destruct Hpi as [Hpi | Hpi], Hclaude as [Hclaude | Hclaude]; rewrite Hpi, Hclaude in *;
    try reflexivity.
  destruct Hsome; discriminate.
Qed.

Lemma X12_witness :
  exists report,
    compareResults emptyArrayWorld = Saved REPORT report /\ Report.comparisons report = [].
Proof.
  destruct (X12_empty_result_sets emptyArrayWorld) as (H & _).
  - left. reflexivity.
  - right. reflexivity.
  - left. reflexivity.
  - eexists. split; [exact H | reflexivity].
Defined.

(** ** The overall verdict and the console *)

Lemma overallSpeed_positive (piTotals claudeTotals : Totals.t) :
  (0 <? Totals.duration piTotals) = true -> (0 <? Totals.duration claudeTotals) = true ->
  (overallSpeed piTotals claudeTotals = overall_pi <->
     (Totals.duration piTotals <? Totals.duration claudeTotals * 0.9) = true) /\
  (overallSpeed piTotals claudeTotals = overall_claude <->
     (Totals.duration claudeTotals <? Totals.duration piTotals * 0.9) = true) /\
  (overallSpeed piTotals claudeTotals = overall_close <->
     (Totals.duration piTotals <? Totals.duration claudeTotals * 0.9) = false /\
     (Totals.duration claudeTotals <? Totals.duration piTotals * 0.9) = false).
Proof.
  intros Hp Hq. unfold overallSpeed.
  destruct (Totals.duration piTotals <? Totals.duration claudeTotals * 0.9) eqn:E1.
  - rewrite (Binary64.margin_exclusive _ _ Hp Hq E1).
    repeat split; intros; try discriminate; try reflexivity.
    destruct H; discriminate.
  - destruct (Totals.duration claudeTotals <? Totals.duration piTotals * 0.9) eqn:E2;
      repeat split; intros; try discriminate; try reflexivity.
    destruct H; discriminate.
Qed.

Lemma consoleOf_saved (toFixed : number -> nat -> string) (numberToString : number -> string)
  (reportPath : string) (w : World) (file : string) (report : Report.t) :
  compareResults w = Saved file report ->
  consoleOf toFixed numberToString reportPath w =
  banner ++ fst (loadResults w PI_RESULTS) ++ fst (loadResults w CLAUDE_RESULTS)
         ++ reportConsole toFixed numberToString reportPath report.
Proof.
  unfold compareResults, consoleOf.
  destruct (loadResults w PI_RESULTS) as [log1 [piResults|]];
    [|intros E; discriminate E].
  destruct (loadResults w CLAUDE_RESULTS) as [log2 [claudeResults|]];
    [|intros E; discriminate E].
  cbn [fst].
  destruct piResults as [piResults|], claudeResults as [claudeResults|]; intros E;
    try discriminate E; injection E as _ <-; reflexivity.
Qed.

Lemma overall_line_printed (toFixed : number -> nat -> string)
  (numberToString : number -> string) (reportPath : string) (w : World) (file : string)
  (report : Report.t) :
  compareResults w = Saved file report ->
  In (overallSpeedLine (overallSpeed (Summary.piTotals (Report.summary report))
                                     (Summary.claudeTotals (Report.summary report))))
     (consoleOf toFixed numberToString reportPath w).
Proof.
  intros E. rewrite (consoleOf_saved toFixed numberToString reportPath w file report E).
  do 3 (apply in_or_app; right). unfold reportConsole.
  do 2 (apply in_or_app; right). apply in_or_app. left.
  unfold overallLines. right. left. reflexivity.
Qed.

(** X13: with both total durations strictly positive, the script announces
    Pi as overall speed winner exactly when Pi's total is strictly below
    [0.9] times Claude's, Claude exactly when Claude's total is strictly
    below [0.9] times Pi's, and "too close to call" exactly when neither
    holds; the announcement is one of the lines of the console. *)
Theorem X13_overall_speed_rule (w : World) (file : string) (report : Report.t) :
  compareResults w = Saved file report ->
  let p := Totals.duration (Summary.piTotals (Report.summary report)) in
  let q := Totals.duration (Summary.claudeTotals (Report.summary report)) in
  let v := overallSpeed (Summary.piTotals (Report.summary report))
                        (Summary.claudeTotals (Report.summary report)) in
  (forall toFixed numberToString reportPath,
     In (overallSpeedLine v) (consoleOf toFixed numberToString reportPath w)) /\
  ((0 <? p) = true -> (0 <? q) = true ->
   (v = overall_pi <-> (p <? q * 0.9) = true) /\
   (v = overall_claude <-> (q <? p * 0.9) = true) /\
   (v = overall_close <-> (p <? q * 0.9) = false /\ (q <? p * 0.9) = false)).
Proof.
  intros E. cbv zeta. split.
  - intros toFixed numberToString reportPath. eapply overall_line_printed, E.
  - apply overallSpeed_positive.
Qed.

Lemma X13_witness :
  overallSpeed (Summary.piTotals (Report.summary (reportOf marginWorld)))
               (Summary.claudeTotals (Report.summary (reportOf marginWorld)))
    = overall_close.
Proof.
  destruct (X13_overall_speed_rule marginWorld REPORT _ marginWorld_saved) as (_ & H).
  apply (H eq_refl eq_refl). split; vm_compute; reflexivity.
Defined.

(** X14: when one result file is missing and the other participant's total
    duration is strictly positive, the script announces the participant
    without any result as overall speed winner: the total of the missing
    participant is [0], which is below nine tenths of any positive
    total. *)
Theorem X14_missing_participant_wins_overall (w : World) (file : string) (report : Report.t) :
  compareResults w = Saved file report ->
  let piTotals := Summary.piTotals (Report.summary report) in
  let claudeTotals := Summary.claudeTotals (Report.summary report) in
  (files w PI_RESULTS = None -> (0 <? Totals.duration claudeTotals) = true ->
   overallSpeed piTotals claudeTotals = overall_pi /\
   forall toFixed numberToString reportPath,
     In "OVERALL SPEED WINNER: Pi Agent SDK"%string
        (consoleOf toFixed numberToString reportPath w)) /\
  (files w CLAUDE_RESULTS = None -> (0 <? Totals.duration piTotals) = true ->
   overallSpeed piTotals claudeTotals = overall_claude /\
   forall toFixed numberToString reportPath,
     In "OVERALL SPEED WINNER: Claude Agent SDK"%string
        (consoleOf toFixed numberToString reportPath w)).
Proof.
  intros E. cbv zeta.
  assert (Hline : forall toFixed numberToString reportPath,
            In (overallSpeedLine (overallSpeed (Summary.piTotals (Report.summary report))
                                               (Summary.claudeTotals (Report.summary report))))
               (consoleOf toFixed numberToString reportPath w))
    by (intros; eapply overall_line_printed, E).
  pose proof (saved_report w file report E) as Hr.
  assert (Hzero : (files w PI_RESULTS = None ->
                   Summary.piTotals (Report.summary report) = zeroTotals) /\
                  (files w CLAUDE_RESULTS = None ->
                   Summary.claudeTotals (Report.summary report) = zeroTotals)).
  { subst report. unfold reportOf, loaded.
    cbn [buildReport Report.summary Summary.piTotals Summary.claudeTotals].
    split; intros Hnone; rewrite Hnone; apply totalsOf_zero; intros c Hin;
      rewrite (comparison_by_name _ _ c Hin); reflexivity. }
  destruct Hzero as [Zpi Zclaude].
  split; intros Hnone Hpos.
  - assert (V : overallSpeed (Summary.piTotals (Report.summary report))
                             (Summary.claudeTotals (Report.summary report)) = overall_pi).
    { unfold overallSpeed. rewrite (Zpi Hnone). cbn [Totals.duration zeroTotals].
      rewrite (Binary64.mul_margin_positive _ Hpos). reflexivity. }
    split; [exact V|]. intros. specialize (Hline toFixed numberToString reportPath).
    rewrite V in Hline. exact Hline.
  - assert (V : overallSpeed (Summary.piTotals (Report.summary report))
                             (Summary.claudeTotals (Report.summary report)) = overall_claude).
    { unfold overallSpeed. rewrite (Zclaude Hnone). cbn [Totals.duration zeroTotals].
      change (0 * 0.9) with (0 : number).
      rewrite (Binary64.positive_not_negative _ Hpos).
      rewrite (Binary64.mul_margin_positive _ Hpos). reflexivity. }
    split; [exact V|]. intros. specialize (Hline toFixed numberToString reportPath).
    rewrite V in Hline. exact Hline.
Qed.

Lemma X14_witness :
  overallSpeed (Summary.piTotals (Report.summary (reportOf claudeOnlyWorld)))
               (Summary.claudeTotals (Report.summary (reportOf claudeOnlyWorld))) = overall_pi /\
  overallSpeed (Summary.piTotals (Report.summary (reportOf piOnlyWorld)))
               (Summary.claudeTotals (Report.summary (reportOf piOnlyWorld))) = overall_claude.
Proof.
  assert (P : compareResults piOnlyWorld = Saved REPORT (reportOf piOnlyWorld))
    by (vm_compute; reflexivity).
  assert (C : compareResults claudeOnlyWorld = Saved REPORT (reportOf claudeOnlyWorld))
    by (vm_compute; reflexivity).
  destruct (X14_missing_participant_wins_overall claudeOnlyWorld REPORT _ C) as (H1 & _).
  destruct (X14_missing_participant_wins_overall piOnlyWorld REPORT _ P) as (_ & H2).
  split; [apply H1 | apply H2]; reflexivity.
Defined.

Lemma missing_participant_entry (piResults claudeResults : option (list Normalised.TestResult))
  (c : Comparison.t) :
  In c (buildComparisons piResults claudeResults) ->
  (~ In (Comparison.testName c) (namesOf piResults) ->
   Comparison.piSdk c = zeroMetrics /\ Winner.speed (Comparison.winner c) = speed_tie) /\
  (~ In (Comparison.testName c) (namesOf claudeResults) ->
   Comparison.claudeSdk c = zeroMetrics /\ Winner.speed (Comparison.winner c) = speed_tie).
Proof.
  intros Hin. pose proof (comparison_by_name _ _ c Hin) as Hc.
  set (name := Comparison.testName c) in *. clearbody name. subst c.
  cbn [compareTest Comparison.piSdk Comparison.claudeSdk Comparison.winner Winner.speed].
  split; intros Hmissing; rewrite (findResult_missing _ _ Hmissing); (split; [reflexivity|]).
  - apply speedWinner_zero. left. reflexivity.
  - apply speedWinner_zero. right. reflexivity.
Qed.

(** X15: for a task that a participant has no record of, the block printed
    for the task shows that participant with a zero duration, "N/A" for
    tokens and for cost and a cross for the status, and the speed line
    reads "Tie". *)
Theorem X15_missing_participant_row (toFixed : number -> nat -> string)
  (numberToString : number -> string) (w : World) (file : string) (report : Report.t)
  (c : Comparison.t) :
  compareResults w = Saved file report ->
  In c (Report.comparisons report) ->
  let block := comparisonBlock toFixed numberToString c in
  (~ In (Comparison.testName c) (namesOf (loaded w PI_RESULTS)) ->
   nth_error block 3 =
     Some ("  Pi SDK:     " ++ toFixed 0 2%nat ++ "s | N/A tokens | N/A | ✗")%string /\
   nth_error block 5 = Some "  Speed: Tie"%string) /\
  (~ In (Comparison.testName c) (namesOf (loaded w CLAUDE_RESULTS)) ->
   nth_error block 4 =
     Some ("  Claude SDK: " ++ toFixed 0 2%nat ++ "s | N/A tokens | N/A | ✗")%string /\
   nth_error block 5 = Some "  Speed: Tie"%string).
Proof.
  intros E Hin. pose proof (saved_report w file report E) as Hr. subst report.
  unfold reportOf in Hin. cbn [buildReport Report.comparisons] in Hin.
  destruct (missing_participant_entry _ _ c Hin) as [Hpi Hclaude].
  cbv zeta. unfold comparisonBlock. cbn [nth_error].
  split; intros Hmissing.
  - destruct (Hpi Hmissing) as [-> ->]. split; reflexivity.
  - destruct (Hclaude Hmissing) as [-> ->]. split; reflexivity.
Qed.

Lemma X15_witness :
  nth_error (comparisonBlock (fun _ _ => "0.00"%string) (fun _ => "n"%string)
                             (entryOf marginWorld "pi-only")) 5
    = Some "  Speed: Tie"%string.
Proof.
  assert (Hin : In (entryOf marginWorld "pi-only") (Report.comparisons (reportOf marginWorld)))
    by (apply entryOf_In; task_listed).
  destruct (X15_missing_participant_row (fun _ _ => "0.00"%string) (fun _ => "n"%string)
              marginWorld REPORT _ _ marginWorld_saved Hin) as (_ & H).
  apply H. vm_compute. intuition discriminate.
Defined.

(** ** Exchanging and duplicating the result files *)

Lemma costWinner_mirror (a b : Metrics.t) : costWinner b a = mirrorCost (costWinner a b).
Proof.
  unfold costWinner.
  destruct (0 <? Metrics.cost a) eqn:Ha, (0 <? Metrics.cost b) eqn:Hb; cbn [andb];
    try reflexivity.
  destruct (Metrics.cost a <? Metrics.cost b * 0.9) eqn:E1.
  - rewrite (Binary64.margin_exclusive _ _ Ha Hb E1). reflexivity.
  - destruct (Metrics.cost b <? Metrics.cost a * 0.9); reflexivity.
Qed.

Lemma speedWinner_mirror (a b : Metrics.t) :
  (0 <=? Metrics.duration a) = true -> (0 <=? Metrics.duration b) = true ->
  speedWinner b a = mirrorSpeed (speedWinner a b).
Proof.
  intros Na Nb.
  destruct (Binary64.leb_zero_cases _ Na) as [Za | Pa].
  { rewrite (speedWinner_zero a b), (speedWinner_zero b a) by tauto. reflexivity. }
  destruct (Binary64.leb_zero_cases _ Nb) as [Zb | Pb].
  { rewrite (speedWinner_zero a b), (speedWinner_zero b a) by tauto. reflexivity. }
  unfold speedWinner, andCond.
  rewrite (Binary64.positive_toBoolean _ Pa), (Binary64.positive_toBoolean _ Pb). cbn [andb].
  destruct (Metrics.duration a <? Metrics.duration b * 0.9) eqn:E1.
  - rewrite (Binary64.margin_exclusive _ _ Pa Pb E1). reflexivity.
  - destruct (Metrics.duration b <? Metrics.duration a * 0.9); reflexivity.
Qed.

Lemma files_swapFiles (w : World) :
  files (swapFiles w) PI_RESULTS = files w CLAUDE_RESULTS /\
  files (swapFiles w) CLAUDE_RESULTS = files w PI_RESULTS.
Proof. split; reflexivity. Qed.

Lemma loaded_swapFiles (w : World) :
  loaded (swapFiles w) PI_RESULTS = loaded w CLAUDE_RESULTS /\
  loaded (swapFiles w) CLAUDE_RESULTS = loaded w PI_RESULTS.
Proof. split; reflexivity. Qed.

Lemma In_collectTestNames (piResults claudeResults : option (list Normalised.TestResult))
  (name : string) :
  In name (collectTestNames piResults claudeResults) <->
  In name (namesOf piResults) \/ In name (namesOf claudeResults).
Proof.
  rewrite collectTestNames_firstOccurrences, In_firstOccurrences. apply in_app_iff.
Qed.

(** X16: when the two result files change places, the script still saves a
    report, and every task's entry is mirrored: the two snapshots are
    exchanged and the cost verdict is the mirrored one; the speed verdict
    is the mirrored one as well when neither duration is negative. *)
Theorem X16_exchanged_files (w : World) (file : string) (report : Report.t) :
  compareResults w = Saved file report ->
  exists report',
    compareResults (swapFiles w) = Saved REPORT report' /\
    forall c, In c (Report.comparisons report) ->
      exists c', In c' (Report.comparisons report') /\
        Comparison.testName c' = Comparison.testName c /\
        Comparison.piSdk c' = Comparison.claudeSdk c /\
        Comparison.claudeSdk c' = Comparison.piSdk c /\
        Winner.cost (Comparison.winner c') = mirrorCost (Winner.cost (Comparison.winner c)) /\
        ((0 <=? Metrics.duration (Comparison.piSdk c)) = true ->
         (0 <=? Metrics.duration (Comparison.claudeSdk c)) = true ->
         Winner.speed (Comparison.winner c') = mirrorSpeed (Winner.speed (Comparison.winner c))).
Proof.
  intros E. exists (reportOf (swapFiles w)). split.
  - revert E. unfold compareResults, reportOf, loaded, loadResults.
    destruct (files_swapFiles w) as [-> ->].
    destruct (files w PI_RESULTS) as [[d1|]|], (files w CLAUDE_RESULTS) as [[d2|]|];
      cbn; intros E; try discriminate E; reflexivity.
  - intros c Hin. destruct (saved_comparison w file report c E Hin) as (name & Hname & ->).
    exists (entryOf (swapFiles w) name). split.
    + apply entryOf_In. destruct (loaded_swapFiles w) as [-> ->].
      apply In_collectTestNames. apply In_collectTestNames in Hname. tauto.
    + unfold entryOf. destruct (loaded_swapFiles w) as [-> ->].
      cbn [compareTest Comparison.testName Comparison.piSdk Comparison.claudeSdk
           Comparison.winner Winner.cost Winner.speed].
      repeat split.
      * apply costWinner_mirror.
      * apply speedWinner_mirror.
Qed.

Lemma X16_witness :
  exists c', In c' (Report.comparisons (reportOf (swapFiles bugDetectionWorld))) /\
    Comparison.piSdk c' = Comparison.claudeSdk bugDetectionEntry /\
    Winner.speed (Comparison.winner c') = speed_claude.
Proof.
  destruct (X16_exchanged_files bugDetectionWorld REPORT _ bugDetectionWorld_saved)
    as (report' & E' & H).
  assert (Hr : report' = reportOf (swapFiles bugDetectionWorld))
    by (apply (saved_report _ _ _ E')).
  subst report'.
  assert (Hin : In bugDetectionEntry (Report.comparisons (reportOf bugDetectionWorld)))
    by (apply entryOf_In; task_listed).
  destruct (H _ Hin) as (c' & Hc' & _ & Hpi & _ & _ & Hspeed).
  exists c'. split; [exact Hc'|]. split; [exact Hpi|].
  rewrite Hspeed by (vm_compute; reflexivity). vm_compute. reflexivity.
Defined.

Lemma self_comparison (results : option (list Normalised.TestResult)) (name : string) :
  let c := compareTest results results name in
  Comparison.piSdk c = Comparison.claudeSdk c /\
  Winner.cost (Comparison.winner c) =
    (if 0 <? Metrics.cost (Comparison.piSdk c) then cost_tie else cost_unknown) /\
  ((0 <=? Metrics.duration (Comparison.piSdk c)) = true ->
   Winner.speed (Comparison.winner c) = speed_tie).
Proof.
  cbn [compareTest Comparison.piSdk Comparison.claudeSdk Comparison.winner
       Winner.cost Winner.speed].
  set (m := metricsOf (findResult results name)). clearbody m.
  split; [reflexivity|]. split.
  - unfold costWinner. destruct (0 <? Metrics.cost m) eqn:P; cbn [andb]; [|reflexivity].
    rewrite (Binary64.margin_irreflexive _ P). reflexivity.
  - intros N. destruct (Binary64.leb_zero_cases _ N) as [Z | P].
    + apply speedWinner_zero. left. exact Z.
    + unfold speedWinner, andCond. rewrite (Binary64.positive_toBoolean _ P). cbn [andb].
      rewrite (Binary64.margin_irreflexive _ P). reflexivity.
Qed.

(** X17: when both file names hold the same content, every entry of the
    report has two equal snapshots, its cost verdict is a tie when the cost
    is positive and "unknown" otherwise, and its speed verdict is a tie
    when the duration is not negative: no participant beats itself. *)
Theorem X17_identical_files (w : World) (file : string) (report : Report.t) :
  files w PI_RESULTS = files w CLAUDE_RESULTS ->
  compareResults w = Saved file report ->
  forall c, In c (Report.comparisons report) ->
    Comparison.piSdk c = Comparison.claudeSdk c /\
    Winner.cost (Comparison.winner c) =
      (if 0 <? Metrics.cost (Comparison.piSdk c) then cost_tie else cost_unknown) /\
    ((0 <=? Metrics.duration (Comparison.piSdk c)) = true ->
     Winner.speed (Comparison.winner c) = speed_tie).
Proof.
  intros Hsame E c Hin.
  destruct (saved_comparison w file report c E Hin) as (name & _ & ->).
  assert (Hl : loaded w CLAUDE_RESULTS = loaded w PI_RESULTS)
    by (unfold loaded; rewrite Hsame; reflexivity).
  rewrite Hl. apply self_comparison.
Qed.

Lemma X17_witness :
  Winner.cost (Comparison.winner (entryOf sameWorld "Refactoring")) = cost_tie /\
  Winner.speed (Comparison.winner (entryOf sameWorld "Refactoring")) = speed_tie.
Proof.
  assert (E : compareResults sameWorld = Saved REPORT (reportOf sameWorld))
    by (vm_compute; reflexivity).
  assert (Hin : In (entryOf sameWorld "Refactoring") (Report.comparisons (reportOf sameWorld)))
    by (apply entryOf_In; task_listed).
  destruct (X17_identical_files sameWorld REPORT _ eq_refl E _ Hin) as (_ & Hcost & Hspeed).
  split; [rewrite Hcost; vm_compute; reflexivity | apply Hspeed; vm_compute; reflexivity].
Defined.

(** ** The console and the outcome agree *)

Lemma saved_line_first_char (reportPath rest : string) (a : ascii) :
  a <> "C"%char -> ("Comparison report saved to: " ++ reportPath)%string <> String a rest.
Proof. intros Hne E. cbn in E. injection E as E _. apply Hne. symmetry. exact E. Qed.

(** X18: the line "Comparison report saved to: ..." is on the console
    exactly when the script has written the report; on the early return
    the console is the banner, the two warnings and the notice, and
    nothing else. *)
Theorem X18_console_tells_the_outcome (toFixed : number -> nat -> string)
  (numberToString : number -> string) (reportPath : string) (w : World) :
  (In ("Comparison report saved to: " ++ reportPath)%string
      (consoleOf toFixed numberToString reportPath w) <->
   exists report, compareResults w = Saved REPORT report) /\
  (forall console, compareResults w = NoResults console ->
     consoleOf toFixed numberToString reportPath w = console /\
     console = banner ++ ["Warning: pi-sdk-results.json not found"%string;
                          "Warning: anthropic-bedrock-results.json not found"%string]
                      ++ noResultsNotice).
Proof.
  split.
  - split.
    + unfold compareResults, consoleOf, loadResults.
      destruct (files w PI_RESULTS) as [[d1|]|], (files w CLAUDE_RESULTS) as [[d2|]|];
        cbn [fst snd]; intros Hin; try (eexists; reflexivity); exfalso;
        cbn [banner noResultsNotice app In] in Hin;
        repeat (destruct Hin as [Hin | Hin];
                [symmetry in Hin; revert Hin; apply saved_line_first_char; discriminate|]);
        exact Hin.
    + intros [report E].
      rewrite (consoleOf_saved toFixed numberToString reportPath w REPORT report E).
      do 3 (apply in_or_app; right). unfold reportConsole.
      do 3 (apply in_or_app; right). left. reflexivity.
  - unfold compareResults, consoleOf, loadResults.
    destruct (files w PI_RESULTS) as [[d1|]|], (files w CLAUDE_RESULTS) as [[d2|]|];
      cbn [fst snd]; intros console E; try discriminate E.
    injection E as <-. split; reflexivity.
Qed.

Lemma X18_witness :
  consoleOf (fun _ _ => "0.00"%string) (fun _ => "n"%string) REPORT emptyWorld =
  banner ++ ["Warning: pi-sdk-results.json not found"%string;
             "Warning: anthropic-bedrock-results.json not found"%string]
         ++ noResultsNotice.
Proof.
  destruct (X18_console_tells_the_outcome (fun _ _ => "0.00"%string) (fun _ => "n"%string)
              REPORT emptyWorld) as (_ & H).
  destruct (H _ eq_refl) as (-> & _). reflexivity.
Defined.
